(** * The sensor-reporting HTTP service of [index.js]

    A shallow embedding of the seven Express route handlers of
    [src/index.js] and of the relational store they query, followed by the
    properties of the service.

    Conventions of the embedding.
    - A request is its body, its path parameters and its query, each an
      object whose fields are JSON scalars ([scalar]); an absent field reads
      as [Undefined], exactly as object destructuring gives it.
    - Numbers are integers ([Z]); instants are milliseconds since the epoch.
    - A handler is a function of the environment of one request ([env]: the
      outcome of the store call, the salt drawn by the hasher, the clock of
      the store), of the store before the request and of the request; it
      returns the store after the request, what the client receives and what
      was written to the console ([reply]).
    - [bcrypt] and [Date.parse] belong to the platform: the handlers take
      them as parameters. *)

From Stdlib Require Import ZArith List String Ascii Bool Lia.
From Stdlib Require Import Permutation Sorted DecimalString.
Import ListNotations.

Open Scope string_scope.
Open Scope Z_scope.

Set Warnings "-register-all".

(** ** JavaScript values *)

Inductive scalar : Type :=
| Undefined
| Null
| Bool (b : bool)
| Num (n : Z)
| Str (s : string).

(** [!v] is [negb (truthy v)]. *)
Definition truthy (v : scalar) : bool :=
  match v with
  | Undefined | Null => false
  | Bool b => b
  | Num n => negb (n =? 0)
  | Str s => negb (s =? "")%string
  end.

(** [v === undefined] *)
Definition is_undefined (v : scalar) : bool :=
  match v with
  | Undefined => true
  | _ => false
  end.

Definition typeof (v : scalar) : string :=
  match v with
  | Undefined => "undefined"
  | Null => "object"
  | Bool _ => "boolean"
  | Num _ => "number"
  | Str _ => "string"
  end.

(** What [res.json] is given: scalars, [Date] objects (the timestamp column),
    arrays and objects with their keys in order. *)
Inductive json : Type :=
| JVal (v : scalar)
| JDate (t : Z)
| JArr (items : list json)
| JObj (fields : list (string * json)).

(** [req.body], [req.params] and [req.query] as the list of their fields. *)
Definition object : Type := list (string * scalar).

(** [const { k } = o] *)
Fixpoint field (k : string) (o : object) : scalar :=
  match o with
  | [] => Undefined
  | (k', v) :: o' => if (k' =? k)%string then v else field k o'
  end.

(** [const { k: _, ...rest } = o] keeps every field but [k]. *)
Definition omit (k : string) (fields : list (string * json)) : list (string * json) :=
  filter (fun kv => negb (fst kv =? k)%string) fields.

(** ** Exceptions

    A JavaScript computation either completes with a value or throws an
    [Error], kept as its [message]. *)

Inductive exc (A : Type) : Type :=
| Ok (a : A)
| Throw (message : string).

Arguments Ok {A} a.
Arguments Throw {A} message.

Definition bind {A B : Type} (m : exc A) (k : A -> exc B) : exc B :=
  match m with
  | Ok a => k a
  | Throw e => Throw e
  end.

Notation "x <- m ;; k" := (bind m (fun x => k))
  (at level 100, m at next level, right associativity).
Notation "' p <- m ;; k" := (bind m (fun x => let 'p := x in k))
  (at level 100, p pattern, m at next level, right associativity).

(** ** Dates

    A [Date] object holds a time value, or NaN once it is invalid. *)

Definition Date : Type := option Z.

Definition msPerDay : Z := 86400000.
Definition msPerHour : Z := 3600000.
Definition msPerMinute : Z := 60000.
Definition msPerSecond : Z := 1000.
Definition maxTime : Z := 8640000000000000.

Definition TimeClip (t : Z) : Date :=
  if (Z.abs t <=? maxTime) then Some t else None.

Definition Day (t : Z) : Z := t / msPerDay.

Definition MakeTime (h m s ms : Z) : Z :=
  h * msPerHour + m * msPerMinute + s * msPerSecond + ms.

Definition MakeDate (day time : Z) : Z := day * msPerDay + time.

(** [d.setUTCHours(h, m, s, ms)]: the same UTC day, at the given time. *)
Definition setUTCHours (h m s ms : Z) (d : Date) : Date :=
  match d with
  | None => None
  | Some t => TimeClip (MakeDate (Day t) (MakeTime h m s ms))
  end.

(** [d.toISOString()] throws a RangeError on an invalid date. The text it
    returns denotes one instant and the store reads it back as that instant:
    the embedding keeps the instant. *)
Definition toISOString (d : Date) : exc Z :=
  match d with
  | None => Throw "Invalid time value"
  | Some t => Ok t
  end.

(** ** The store

    Modelled from the spec: the schema of the two tables, which the
    repository does not declare:
    [users(device_id UNIQUE, email, password)] and
    [sensor_data(id, device_id, temperature, humidity, air_quality,
    lpg_level, timestamp)]. A table is the list of its rows in heap order.
    The reading columns keep the values they are given. *)

Record user_row : Type := mkUser {
  u_device_id : string;
  u_email : option string;
  u_password : option string
}.

Record reading : Type := mkReading {
  r_id : Z;
  r_device_id : string;
  r_temperature : scalar;
  r_humidity : scalar;
  r_air_quality : scalar;
  r_lpg_level : scalar;
  r_timestamp : Z
}.

Record db : Type := mkDb {
  users : list user_row;
  sensor_data : list reading;
  next_id : Z
}.

(** How node-postgres sends a scalar parameter to a text column: [null] and
    [undefined] as NULL, everything else through [toString]. *)
Definition pg_text (v : scalar) : option string :=
  match v with
  | Undefined | Null => None
  | Bool true => Some "true"
  | Bool false => Some "false"
  | Num n => Some (NilZero.string_of_int (Z.to_int n))
  | Str s => Some s
  end.

(** SQL [column = $n] on a text column: NULL on either side is not a match. *)
Definition sql_eq (column param : option string) : bool :=
  match column, param with
  | Some a, Some b => (a =? b)%string
  | _, _ => false
  end.

Definition of_text (c : option string) : json :=
  match c with
  | None => JVal Null
  | Some s => JVal (Str s)
  end.

(** A row as [result.rows] holds it. *)
Definition user_object (u : user_row) : list (string * json) :=
  [("device_id", JVal (Str (u_device_id u)));
   ("email", of_text (u_email u));
   ("password", of_text (u_password u))].

Definition reading_object (r : reading) : list (string * json) :=
  [("id", JVal (Num (r_id r)));
   ("device_id", JVal (Str (r_device_id r)));
   ("temperature", JVal (r_temperature r));
   ("humidity", JVal (r_humidity r));
   ("air_quality", JVal (r_air_quality r));
   ("lpg_level", JVal (r_lpg_level r));
   ("timestamp", JDate (r_timestamp r))].

(** [ORDER BY]: a stable sort of the selected rows. *)
Fixpoint insert_by (leb : reading -> reading -> bool) (x : reading)
    (l : list reading) : list reading :=
  match l with
  | [] => [x]
  | y :: l' => if leb x y then x :: l else y :: insert_by leb x l'
  end.

Definition sort_by (leb : reading -> reading -> bool) (l : list reading)
    : list reading :=
  fold_right (insert_by leb) [] l.

Definition timestamp_asc (a b : reading) : bool :=
  r_timestamp a <=? r_timestamp b.

Definition timestamp_desc (a b : reading) : bool :=
  r_timestamp b <=? r_timestamp a.

(** [ORDER BY timestamp ASC] and [ORDER BY timestamp DESC] *)
Definition order_by_timestamp_asc : list reading -> list reading :=
  sort_by timestamp_asc.

Definition order_by_timestamp_desc : list reading -> list reading :=
  sort_by timestamp_desc.

(** [UPDATE users SET email = $1, password = $2 WHERE device_id = $3
    RETURNING *] *)
Definition update_user (email : option string) (password : string)
    (device_id : option string) (d : db) : db * list user_row :=
  let hit u := sql_eq (Some (u_device_id u)) device_id in
  let set u := mkUser (u_device_id u) email (Some password) in
  (mkDb (map (fun u => if hit u then set u else u) (users d))
        (sensor_data d) (next_id d),
   map set (filter hit (users d))).

(** [INSERT INTO users (device_id, email, password) VALUES ($1, $2, $3)
    ON CONFLICT (device_id) DO UPDATE SET email = EXCLUDED.email,
    password = EXCLUDED.password RETURNING *] *)
Definition upsert_user (device_id : string) (email : option string)
    (password : string) (d : db) : db * list user_row :=
  let new := mkUser device_id email (Some password) in
  let hit u := (u_device_id u =? device_id)%string in
  let users' :=
    if existsb hit (users d)
    then map (fun u => if hit u then new else u) (users d)
    else (users d ++ [new])%list in
  (mkDb users' (sensor_data d) (next_id d), [new]).

(** [SELECT * FROM users WHERE email = $1] *)
Definition select_users_by_email (email : option string) (d : db)
    : db * list user_row :=
  (d, filter (fun u => sql_eq (u_email u) email) (users d)).

(** [INSERT INTO sensor_data (device_id, temperature, humidity, air_quality,
    lpg_level, timestamp) VALUES ($1, $2, $3, $4, $5, NOW()) RETURNING *] *)
Definition insert_reading (now : Z) (device_id : string)
    (temperature humidity air_quality lpg_level : scalar) (d : db)
    : db * list reading :=
  let new := mkReading (next_id d) device_id temperature humidity
                       air_quality lpg_level now in
  (mkDb (users d) (sensor_data d ++ [new])%list (next_id d + 1), [new]).

Definition of_device (device_id : option string) (r : reading) : bool :=
  sql_eq (Some (r_device_id r)) device_id.

(** [SELECT * FROM sensor_data WHERE device_id = $1 ORDER BY timestamp DESC] *)
Definition select_readings (device_id : option string) (d : db)
    : db * list reading :=
  (d, order_by_timestamp_desc (filter (of_device device_id) (sensor_data d))).

(** [... ORDER BY timestamp DESC LIMIT 1]. Which of several rows of the
    latest timestamp is returned is the store's choice; the properties
    proved of this query use [select_latest_spec] or exclude the tie. *)
Definition select_latest (device_id : option string) (d : db)
    : db * list reading :=
  (d, firstn 1 (snd (select_readings device_id d))).

Definition in_window (lo hi : Z) (r : reading) : bool :=
  (lo <=? r_timestamp r) && (r_timestamp r <=? hi).

(** [SELECT * FROM sensor_data WHERE device_id = $1 AND timestamp >= $2 AND
    timestamp <= $3 ORDER BY timestamp ASC] *)
Definition select_history (device_id : option string) (lo hi : Z) (d : db)
    : db * list reading :=
  (d, order_by_timestamp_asc
        (filter (fun r => of_device device_id r && in_window lo hi r)
                (sensor_data d))).

(** ** Requests, replies and the environment of a request *)

Record request : Type := mkRequest {
  body : object;
  params : object;
  query : object
}.

(** What the client observes: a response, or nothing from the handler
    because an exception left it uncaught. *)
Inductive outcome : Type :=
| Responded (status : Z) (payload : json)
| Escaped (message : string).

Record env : Type := mkEnv {
  store_failure : option string;  (* the store call throws this message *)
  salt : string;                  (* the salt [bcrypt.hash] draws *)
  now : Z                         (* [NOW()] *)
}.

Record reply : Type := mkReply {
  store : db;
  sent : outcome;
  console : list (string * string)
}.

(** [await pool.query(...)]: the statement runs, or the call throws and the
    store is left as it was. *)
Definition pool_query {R : Type} (e : env) (statement : db -> db * R) (d : db)
    : exc (db * R) :=
  match store_failure e with
  | Some message => Throw message
  | None => Ok (statement d)
  end.

(** [res.status(status).json(payload)] *)
Definition respond (d : db) (status : Z) (payload : json) : reply :=
  mkReply d (Responded status payload) [].

(** [try { block } catch (error) { handler }] *)
Definition try_catch (block : exc reply) (handler : string -> reply) : reply :=
  match block with
  | Ok r => r
  | Throw error => handler error
  end.

Definition str (s : string) : json := JVal (Str s).

(** [o.k] on a response object *)
Fixpoint get (k : string) (fields : list (string * json)) : json :=
  match fields with
  | [] => JVal Undefined
  | (k', v) :: rest => if (k' =? k)%string then v else get k rest
  end.

(** ** The handlers *)

Section Handlers.

(** [bcryptjs]: the hash of a plaintext under a salt, and the check of a
    plaintext against a stored hash. *)
Variable bcrypt_hash : string -> string -> string.
Variable bcrypt_compare : string -> string -> bool.

(** [Date.parse]: the time value a string denotes, if any. *)
Variable Date_parse : string -> option Z.

(** [await bcrypt.hash(s, 10)] rejects unless [s] is a string. *)
Definition hash (e : env) (s : scalar) : exc string :=
  match s with
  | Str plaintext => Ok (bcrypt_hash (salt e) plaintext)
  | _ => Throw ("Illegal arguments: " ++ typeof s ++ ", number")
  end.

(** [await bcrypt.compare(s, stored)] rejects unless both are strings. *)
Definition compare (s : scalar) (stored : option string) : exc bool :=
  match s, stored with
  | Str plaintext, Some h => Ok (bcrypt_compare plaintext h)
  | _, Some _ => Throw ("Illegal arguments: " ++ typeof s ++ ", string")
  | _, None => Throw ("Illegal arguments: " ++ typeof s ++ ", object")
  end.

(** [new Date(v)] *)
Definition new_Date (v : scalar) : Date :=
  match v with
  | Str s => Date_parse s
  | Num n => TimeClip n
  | Bool b => Some (if b then 1 else 0)
  | Null => Some 0
  | Undefined => None
  end.

(** [app.put("/api/signup", ...)] *)
Definition put_api_signup (e : env) (d : db) (req : request) : reply :=
  let email := field "email" (body req) in
  let password := field "password" (body req) in
  let device_id := field "device_id" (body req) in
  if negb (truthy device_id) then
    respond d 400 (JObj [("error", str "Device ID is required")])
  else
    match hash e password with
    | Throw message => mkReply d (Escaped message) []
    | Ok hashedPassword =>
        try_catch
          ('(d', rows) <- pool_query e
              (update_user (pg_text email) hashedPassword (pg_text device_id)) d ;;
           match rows with
           | [] => Ok (respond d' 404 (JObj [("error", str "Device ID not found")]))
           | row :: _ =>
               let userSafeData := omit "password" (user_object row) in
               Ok (respond d' 200
                     (JObj [("message", str "User updated successfully");
                            ("user", JObj userSafeData)]))
           end)
          (fun error =>
             mkReply d (Responded 500 (JObj [("error", str "Error updating user")]))
                     [("Signup update error:", error)])
    end.

(** [app.post("/api/login", ...)] *)
Definition post_api_login (e : env) (d : db) (req : request) : reply :=
  try_catch
    (let email := field "email" (body req) in
     let password := field "password" (body req) in
     if negb (truthy email) || negb (truthy password) then
       Ok (respond d 400 (JObj [("message", str "Missing email or password")]))
     else
       '(d', rows) <- pool_query e (select_users_by_email (pg_text email)) d ;;
       match rows with
       | [] => Ok (respond d' 401 (JObj [("message", str "Invalid credentials")]))
       | row :: _ =>
           isPasswordValid <- compare password (u_password row) ;;
           if negb isPasswordValid then
             Ok (respond d' 401 (JObj [("message", str "Invalid credentials")]))
           else
             let userSafeData := omit "password" (user_object row) in
             Ok (respond d' 200
                   (JObj [("message", str "Login successful");
                          ("device_id", get "device_id" userSafeData)]))
       end)
    (fun error =>
       mkReply d (Responded 500 (JObj [("message", str "Server error");
                                       ("error", str error)]))
               [("❌ Server Error:", error)]).

(** [app.post("/api/data", ...)]. Past the guard [device_id] is truthy, so
    it is never sent as NULL. *)
Definition post_api_data (e : env) (d : db) (req : request) : reply :=
  let device_id := field "device_id" (body req) in
  let temperature := field "temperature" (body req) in
  let humidity := field "humidity" (body req) in
  let air_quality := field "air_quality" (body req) in
  let lpg_level := field "lpg_level" (body req) in
  if negb (truthy device_id) || is_undefined temperature || is_undefined humidity
     || is_undefined air_quality || is_undefined lpg_level then
    respond d 400 (JObj [("error", str "Missing required fields")])
  else
    try_catch
      ('(d', rows) <- pool_query e
          (match pg_text device_id with
           | Some id => insert_reading (now e) id temperature humidity
                                       air_quality lpg_level
           | None => fun d0 => (d0, [])
           end) d ;;
       Ok (respond d' 201
             (JObj [("message", str "Data stored successfully");
                    ("data", match rows with
                             | row :: _ => JObj (reading_object row)
                             | [] => JVal Undefined
                             end)])))
      (fun error =>
         mkReply d (Responded 500 (JObj [("error", str "Failed to store data")]))
                 [("Database error:", error)]).

(** [app.get("/api/data/:device_id", ...)] *)
Definition get_api_data (e : env) (d : db) (req : request) : reply :=
  let device_id := field "device_id" (params req) in
  try_catch
    ('(d', rows) <- pool_query e (select_readings (pg_text device_id)) d ;;
     Ok (respond d' 200 (JArr (map (fun r => JObj (reading_object r)) rows))))
    (fun error =>
       mkReply d (Responded 500 (JObj [("error", str "Failed to fetch data")]))
               [("Database error:", error)]).

(** [app.get("/api/data/latest/:device_id", ...)] *)
Definition get_api_data_latest (e : env) (d : db) (req : request) : reply :=
  let device_id := field "device_id" (params req) in
  try_catch
    ('(d', rows) <- pool_query e (select_latest (pg_text device_id)) d ;;
     match rows with
     | [] => Ok (respond d' 404 (JObj [("error", str "No data available")]))
     | row :: _ => Ok (respond d' 200 (JObj (reading_object row)))
     end)
    (fun error =>
       mkReply d (Responded 500 (JObj [("error", str "Failed to fetch latest data")]))
               [("Database error:", error)]).

(** [app.get("/api/data/history/:device_id", ...)] *)
Definition get_api_data_history (e : env) (d : db) (req : request) : reply :=
  try_catch
    (let device_id := field "device_id" (params req) in
     let date := field "date" (query req) in
     if negb (truthy date) then
       Ok (respond d 400 (JObj [("error", str "Date parameter is required")]))
     else
       let startDate := setUTCHours 0 0 0 0 (new_Date date) in
       let endDate := setUTCHours 23 59 59 999 (new_Date date) in
       lo <- toISOString startDate ;;
       hi <- toISOString endDate ;;
       '(d', rows) <- pool_query e (select_history (pg_text device_id) lo hi) d ;;
       match rows with
       | [] => Ok (respond d' 200
                     (JObj [("message", str "No data available for the selected date.")]))
       | _ :: _ => Ok (respond d' 200 (JArr (map (fun r => JObj (reading_object r)) rows)))
       end)
    (fun error =>
       mkReply d (Responded 500 (JObj [("error", str "Failed to fetch historical data")]))
               [("Database error:", error)]).

(** [app.post("/api/signup/admin", ...)]. Past the guard [device_id] is
    truthy, so it is never sent as NULL. *)
Definition post_api_signup_admin (e : env) (d : db) (req : request) : reply :=
  let email := field "email" (body req) in
  let password := field "password" (body req) in
  let device_id := field "device_id" (body req) in
  if negb (truthy device_id) then
    respond d 400 (JObj [("error", str "Device ID is required")])
  else
    match hash e password with
    | Throw message => mkReply d (Escaped message) []
    | Ok hashedPassword =>
        try_catch
          ('(d', rows) <- pool_query e
              (match pg_text device_id with
               | Some id => upsert_user id (pg_text email) hashedPassword
               | None => fun d0 => (d0, [])
               end) d ;;
           match rows with
           | [] => Throw "Cannot destructure 'result.rows[0]' as it is undefined."
           | row :: _ =>
               let userSafeData := omit "password" (user_object row) in
               Ok (respond d' 200
                     (JObj [("message", str "User created/updated successfully");
                            ("user", JObj userSafeData)]))
           end)
          (fun error =>
             mkReply d (Responded 500 (JObj [("error", str "Error processing signup")]))
                     [("Signup error:", error)])
    end.

End Handlers.

(** ** Instances of the platform functions, for running the handlers

    [plain_hash] and [plain_compare] stand in for bcrypt where a handler is
    evaluated on an example: a fixed prefix in front of the plaintext.
    [iso_date_parse] is [Date.parse] on the date-only form [YYYY-MM-DD],
    which ECMAScript reads as UTC midnight of that day. *)

Definition plain_hash (salt plaintext : string) : string :=
  "$2a$10$" ++ plaintext.

Definition plain_compare (plaintext stored : string) : bool :=
  (stored =? "$2a$10$" ++ plaintext)%string.

Definition digit (c : ascii) : option Z :=
  let n := Z.of_N (N_of_ascii c) in
  if (48 <=? n) && (n <=? 57) then Some (n - 48) else None.

Fixpoint number (acc : Z) (s : string) : option Z :=
  match s with
  | EmptyString => Some acc
  | String c s' =>
      match digit c with
      | Some k => number (10 * acc + k) s'
      | None => None
      end
  end.

Definition leap (y : Z) : bool :=
  ((y mod 4 =? 0) && negb (y mod 100 =? 0)) || (y mod 400 =? 0).

Definition DaysInMonth (y m : Z) : Z :=
  if m =? 2 then (if leap y then 29 else 28)
  else if (m =? 4) || (m =? 6) || (m =? 9) || (m =? 11) then 30
  else 31.

(** Days from 1970-01-01 to the given civil date. *)
Definition days_from_civil (y m d : Z) : Z :=
  let y' := if m <=? 2 then y - 1 else y in
  let era := y' / 400 in
  let yoe := y' - era * 400 in
  let mp := (m + 9) mod 12 in
  let doy := (153 * mp + 2) / 5 + d - 1 in
  let doe := yoe * 365 + yoe / 4 - yoe / 100 + doy in
  era * 146097 + doe - 719468.

Definition iso_date_parse (s : string) : option Z :=
  if (Z.of_nat (String.length s) =? 10)
     && (substring 4 1 s =? "-")%string && (substring 7 1 s =? "-")%string
  then
    match number 0 (substring 0 4 s), number 0 (substring 5 2 s),
          number 0 (substring 8 2 s) with
    | Some y, Some m, Some d =>
        if (1 <=? m) && (m <=? 12) && (1 <=? d) && (d <=? DaysInMonth y m)
        then Some (days_from_civil y m d * msPerDay)
        else None
    | _, _, _ => None
    end
  else None.

Definition no_failure (t : Z) : env := mkEnv None "N9qo8uLOickgx2ZMRZoMye" t.
Definition failure (message : string) : env :=
  mkEnv (Some message) "N9qo8uLOickgx2ZMRZoMye" 0.

Definition empty_db : db := mkDb [] [] 1.

Definition post (fields : object) : request := mkRequest fields [] [].
Definition get_device (device_id : string) (q : object) : request :=
  mkRequest [] [("device_id", Str device_id)] q.

(** The timestamp a row of a response carries. *)
Definition timestamp_of (row : json) : Z :=
  match row with
  | JObj fields => match get "timestamp" fields with
                   | JDate t => t
                   | _ => 0
                   end
  | _ => 0
  end.

Definition rows_json (rows : list reading) : json :=
  JArr (map (fun r => JObj (reading_object r)) rows).


(** The marker HistoryByDate answers with when no row is selected. *)
Definition no_data_marker : json :=
  JObj [("message", str "No data available for the selected date.")].

(** Whether a payload carries a [password] key at any depth. *)
Fixpoint has_password_field (j : json) : bool :=
  match j with
  | JVal _ | JDate _ => false
  | JArr items =>
      (fix any (l : list json) : bool :=
         match l with
         | [] => false
         | x :: l' => has_password_field x || any l'
         end) items
  | JObj fields =>
      (fix any (l : list (string * json)) : bool :=
         match l with
         | [] => false
         | (k, v) :: l' => (k =? "password")%string || has_password_field v || any l'
         end) fields
  end.

(** A store with readings around the boundaries of 2024-01-01 (UTC), whose
    first millisecond is 1704067200000. *)
Definition sample_readings : list reading :=
  [mkReading 1 "dev1" (Num 21) (Num 40) (Num 7) (Num 0) 1704153599999;
   mkReading 2 "dev1" (Num 22) (Num 41) (Num 7) (Num 0) 1704153600001;
   mkReading 3 "dev2" (Num 19) (Num 55) (Num 9) (Num 1) 1704100000000;
   mkReading 4 "dev1" (Num 20) (Num 39) (Num 6) (Num 0) 1704067200000;
   mkReading 5 "dev1" (Num 18) (Num 38) (Num 6) (Num 0) 1704067199999].

Definition sample_db : db :=
  mkDb [mkUser "dev1" (Some "ann@example.org") (Some "$2a$10$secret")]
       sample_readings 6.

(** What a successful signup leaves in the users table: the device has a
    row; each of its rows holds [stored] as its password, which is the
    [plaintext] only if the two are the same string; and the rows of the
    other devices are rows of the table before. *)
Definition password_stored (before after : db)
    (device_id plaintext stored : string) : Prop :=
  (exists u, In u (users after) /\ u_device_id u = device_id) /\
  (forall u, In u (users after) -> u_device_id u = device_id ->
             u_password u = Some stored /\
             (u_password u = Some plaintext <-> stored = plaintext)) /\
  (forall u, In u (users after) -> u_device_id u <> device_id ->
             In u (users before)).

(** ** Vocabulary of the further properties *)

(** The status a handler answered with, if it answered. *)
Definition status_of (o : outcome) : option Z :=
  match o with
  | Responded status _ => Some status
  | Escaped _ => None
  end.

(** [typeof v === "string"] *)
Definition is_string (v : scalar) : bool :=
  match v with
  | Str _ => true
  | _ => false
  end.

(** The [device_id] column of the users table. *)
Definition device_ids (d : db) : list string := map u_device_id (users d).

(** The rows of a device in [sensor_data]. *)
Definition readings_of (device_id : string) (d : db) : list reading :=
  filter (fun r => (r_device_id r =? device_id)%string) (sensor_data d).

(** [Date.parse] that also reads the last instant ECMAScript can represent,
    written with an expanded year. *)
Definition iso_date_parse_expanded (s : string) : option Z :=
  if (s =? "+275760-09-13T00:00:00.000Z")%string then Some maxTime
  else iso_date_parse s.

(** A store with two accounts that share nothing. *)
Definition two_users_db : db :=
  mkDb [mkUser "dev1" (Some "ann@example.org") (Some "$2a$10$secret");
        mkUser "dev2" (Some "bob@example.org") (Some "$2a$10$hunter2")]
       sample_readings 6.

(** [Date.parse] on the date-time form [YYYY-MM-DDTHH:mm:ss.sssZ] too. *)
Definition iso_datetime_parse (s : string) : option Z :=
  if (Z.of_nat (String.length s) =? 24)
     && (substring 10 1 s =? "T")%string && (substring 13 1 s =? ":")%string
     && (substring 16 1 s =? ":")%string && (substring 19 1 s =? ".")%string
     && (substring 23 1 s =? "Z")%string
  then
    match iso_date_parse (substring 0 10 s), number 0 (substring 11 2 s),
          number 0 (substring 14 2 s), number 0 (substring 17 2 s),
          number 0 (substring 20 3 s) with
    | Some day, Some h, Some m, Some sec, Some ms =>
        if (h <=? 23) && (m <=? 59) && (sec <=? 59)
        then Some (day + MakeTime h m sec ms)
        else None
    | _, _, _, _, _ => None
    end
  else iso_date_parse s.

(** The console entries a reply is expected to come with: one beside a 500,
    none otherwise. *)
Definition entries_for (o : outcome) : nat :=
  match o with
  | Responded 500 _ => 1
  | _ => 0
  end.
(** ** Facts about the store *)

Section Ordering.

Variable leb : reading -> reading -> bool.
Hypothesis leb_total : forall a b, leb a b = true \/ leb b a = true.
Hypothesis leb_trans : forall a b c, leb a b = true -> leb b c = true -> leb a c = true.

Lemma insert_by_perm (x : reading) (l : list reading) :
  Permutation (x :: l) (insert_by leb x l).
Proof.
  induction l as [|y l IH]; simpl.
  - apply Permutation_refl.
  - destruct (leb x y).
    + apply Permutation_refl.
    + eapply perm_trans; [apply perm_swap|]. now apply perm_skip.
Qed.

Lemma sort_by_perm (l : list reading) : Permutation l (sort_by leb l).
Proof.
  induction l as [|x l IH]; simpl.
  - constructor.
  - eapply perm_trans; [|apply insert_by_perm]. now apply perm_skip.
Qed.

Lemma insert_by_sorted (x : reading) (l : list reading) :
  StronglySorted (fun a b => leb a b = true) l ->
  StronglySorted (fun a b => leb a b = true) (insert_by leb x l).
Proof.
  induction 1 as [|y l Hl IH Hy]; simpl.
  - repeat constructor.
  - destruct (leb x y) eqn:Hxy.
    + constructor; [now constructor|].
      constructor; [assumption|].
      rewrite Forall_forall in *. intros z Hz. eauto.
    + constructor; [assumption|].
      assert (Hyx : leb y x = true)
        by (destruct (leb_total x y); congruence).
      rewrite Forall_forall in *. intros z Hz.
      apply (Permutation_in _ (Permutation_sym (insert_by_perm x l))) in Hz.
      destruct Hz as [<-|Hz]; auto.
Qed.

Lemma sort_by_sorted (l : list reading) :
  StronglySorted (fun a b => leb a b = true) (sort_by leb l).
Proof.
  induction l as [|x l IH]; simpl.
  - constructor.
  - now apply insert_by_sorted.
Qed.

End Ordering.

Lemma timestamp_asc_sorted (l : list reading) :
  StronglySorted Z.le (map r_timestamp (order_by_timestamp_asc l)).
Proof.
  unfold order_by_timestamp_asc.
  assert (H : StronglySorted (fun a b => timestamp_asc a b = true)
                             (sort_by timestamp_asc l)).
  { apply sort_by_sorted; unfold timestamp_asc; intros.
    - rewrite !Z.leb_le; lia.
    - rewrite Z.leb_le in *; lia. }
  induction H as [|x s Hs IH Hx]; simpl; constructor; auto.
  rewrite Forall_forall in *. intros t Ht.
  apply in_map_iff in Ht as (r & <- & Hr).
  apply Hx in Hr. unfold timestamp_asc in Hr. now apply Z.leb_le.
Qed.

Lemma timestamp_desc_sorted (l : list reading) :
  StronglySorted Z.ge (map r_timestamp (order_by_timestamp_desc l)).
Proof.
  unfold order_by_timestamp_desc.
  assert (H : StronglySorted (fun a b => timestamp_desc a b = true)
                             (sort_by timestamp_desc l)).
  { apply sort_by_sorted; unfold timestamp_desc; intros.
    - rewrite !Z.leb_le; lia.
    - rewrite Z.leb_le in *; lia. }
  induction H as [|x s Hs IH Hx]; simpl; constructor; auto.
  rewrite Forall_forall in *. intros t Ht.
  apply in_map_iff in Ht as (r & <- & Hr).
  apply Hx in Hr. unfold timestamp_desc in Hr.
  apply Z.leb_le in Hr. lia.
Qed.

Lemma timestamps_of_rows (rows : list reading) :
  map timestamp_of (map (fun r => JObj (reading_object r)) rows)
  = map r_timestamp rows.
Proof.
  rewrite map_map. apply map_ext. intros r. reflexivity.
Qed.

Lemma sql_eq_text (a b : string) :
  sql_eq (Some a) (Some b) = true <-> a = b.
Proof. simpl. apply String.eqb_eq. Qed.

(** ** Properties of the handlers *)

(** Case analysis on whatever a reply still branches on. *)
Ltac branch H :=
  repeat match type of H with
         | context [match ?x with _ => _ end] =>
             lazymatch x with
             | context [match _ with _ => _ end] => fail
             | _ => destruct x eqn:?; simpl in H
             end
         end;
  try discriminate H.

Lemma get_api_data_reply (e : env) (d : db) (req : request) :
  store_failure e = None ->
  get_api_data e d req
  = respond d 200
      (rows_json (snd (select_readings (pg_text (field "device_id" (params req))) d))).
Proof.
  intros He. unfold get_api_data, pool_query. rewrite He. reflexivity.
Qed.

(** C4. The array ListReadings responds with carries timestamps in
    non-increasing order (and it does respond with that array whenever the
    store call succeeds); any array HistoryByDate responds with carries
    timestamps in non-decreasing order. *)
Theorem readings_descending_history_ascending
    (Date_parse : string -> option Z) (e : env) (d : db) (req : request) :
  (store_failure e = None ->
   exists items, sent (get_api_data e d req) = Responded 200 (JArr items)) /\
  (forall status items,
     sent (get_api_data e d req) = Responded status (JArr items) ->
     StronglySorted Z.ge (map timestamp_of items)) /\
  (forall status items,
     sent (get_api_data_history Date_parse e d req) = Responded status (JArr items) ->
     StronglySorted Z.le (map timestamp_of items)).
Proof.
  split; [|split].
  - intros He. rewrite (get_api_data_reply e d req He). eexists. reflexivity.
  - intros status items H.
    unfold get_api_data, pool_query, try_catch, bind in H.
    destruct (store_failure e); simpl in H; [discriminate|].
    injection H as _ <-.
    rewrite timestamps_of_rows. apply timestamp_desc_sorted.
  - intros status items H.
    unfold get_api_data_history, pool_query, try_catch, bind, toISOString in H.
    destruct (truthy (field "date" (query req))); simpl in H; [|discriminate].
    destruct (setUTCHours 0 0 0 0 _); simpl in H; [|discriminate].
    destruct (setUTCHours 23 59 59 999 _); simpl in H; [|discriminate].
    destruct (store_failure e); simpl in H; [discriminate|].
    match type of H with
    | context [order_by_timestamp_asc ?l] =>
        pose proof (timestamp_asc_sorted l) as Hs;
        destruct (order_by_timestamp_asc l) as [|r rows]
    end; simpl in H; [discriminate|].
    injection H as _ <-.
    change (StronglySorted Z.le
              (map timestamp_of (map (fun r => JObj (reading_object r)) (r :: rows)))).
    rewrite timestamps_of_rows. exact Hs.
Qed.

Lemma readings_descending_history_ascending_witness :
  (exists items,
     sent (get_api_data (no_failure 0) sample_db (get_device "dev1" []))
     = Responded 200 (JArr items)
     /\ StronglySorted Z.ge (map timestamp_of items)) /\
  (exists items,
     sent (get_api_data_history iso_date_parse (no_failure 0) sample_db
             (get_device "dev1" [("date", Str "2024-01-01")]))
     = Responded 200 (JArr items)
     /\ StronglySorted Z.le (map timestamp_of items)).
Proof.
  pose proof (readings_descending_history_ascending iso_date_parse (no_failure 0)
                sample_db (get_device "dev1" [])) as (_ & Hdesc & _).
  pose proof (readings_descending_history_ascending iso_date_parse (no_failure 0)
                sample_db (get_device "dev1" [("date", Str "2024-01-01")]))
    as (_ & _ & Hasc).
  split.
  - eexists. split; [vm_compute; reflexivity|].
    apply (Hdesc 200). vm_compute. reflexivity.
  - eexists. split; [vm_compute; reflexivity|].
    apply (Hasc 200). vm_compute. reflexivity.
Defined.

(** The two [setUTCHours] calls of HistoryByDate on a valid date: the first
    and the last millisecond of its UTC day. *)
Lemma utc_day_window (t : Z) :
  - maxTime <= Day t * msPerDay ->
  Day t * msPerDay + 86399999 <= maxTime ->
  setUTCHours 0 0 0 0 (Some t) = Some (Day t * msPerDay) /\
  setUTCHours 23 59 59 999 (Some t) = Some (Day t * msPerDay + 86399999).
Proof.
  intros Hlo Hhi. unfold setUTCHours, TimeClip, MakeDate.
  change (MakeTime 0 0 0 0) with 0.
  change (MakeTime 23 59 59 999) with 86399999.
  rewrite Z.add_0_r.
  replace (Z.abs (Day t * msPerDay) <=? maxTime) with true
    by (symmetry; apply Z.leb_le; lia).
  replace (Z.abs (Day t * msPerDay + 86399999) <=? maxTime) with true
    by (symmetry; apply Z.leb_le; lia).
  split; reflexivity.
Qed.

Lemma Day_of_midnight (D : Z) : Day (D * msPerDay) = D.
Proof. unfold Day. apply Z.div_mul. discriminate. Qed.

Lemma truthy_Str (s : string) : s <> "" -> truthy (Str s) = true.
Proof.
  intros Hs. simpl. destruct (String.eqb_spec s ""); [contradiction|reflexivity].
Qed.

(** C3. For a date string that denotes the calendar day [D] (UTC midnight of
    the day numbered [D] from the epoch) whose first and last millisecond are
    representable instants, and when the store call succeeds, HistoryByDate
    answers 200 with exactly the stored rows of the device whose timestamp
    lies in [D 00:00:00.000Z, D 23:59:59.999Z], in place of which it sends
    the no-data marker when there is none; a row outside the window, be it
    by one millisecond, is not among them. *)
Theorem history_by_date_exact_window
    (Date_parse : string -> option Z) (e : env) (d : db) (req : request)
    (dev date : string) (D : Z) :
  field "device_id" (params req) = Str dev ->
  field "date" (query req) = Str date ->
  date <> "" ->
  Date_parse date = Some (D * msPerDay) ->
  - maxTime <= D * msPerDay ->
  D * msPerDay + 86399999 <= maxTime ->
  store_failure e = None ->
  exists rows,
    get_api_data_history Date_parse e d req
    = respond d 200 (match rows with
                     | [] => no_data_marker
                     | _ :: _ => rows_json rows
                     end)
    /\ Permutation rows
         (filter (fun r => (r_device_id r =? dev)%string
                           && ((D * msPerDay <=? r_timestamp r)
                               && (r_timestamp r <=? D * msPerDay + 86399999)))
                 (sensor_data d))
    /\ (forall r, In r rows <->
                  In r (sensor_data d) /\ r_device_id r = dev /\
                  D * msPerDay <= r_timestamp r <= D * msPerDay + 86399999)
    /\ (forall r, In r rows ->
                  r_timestamp r <> D * msPerDay - 1 /\
                  r_timestamp r <> D * msPerDay + 86399999 + 1).
Proof.
  intros Hdev Hdate Hne Hparse Hlo Hhi He.
  set (sel := filter (fun r => (r_device_id r =? dev)%string
                           && ((D * msPerDay <=? r_timestamp r)
                               && (r_timestamp r <=? D * msPerDay + 86399999)))
                     (sensor_data d)).
  assert (Hin : forall r, In r (order_by_timestamp_asc sel) <->
                  In r (sensor_data d) /\ r_device_id r = dev /\
                  D * msPerDay <= r_timestamp r <= D * msPerDay + 86399999).
  { intros r. unfold order_by_timestamp_asc.
    assert (Hp := sort_by_perm timestamp_asc sel).
    split.
    - intros Hr. apply (Permutation_in _ (Permutation_sym Hp)) in Hr.
      apply filter_In in Hr as (Hr & Hc).
      apply andb_prop in Hc as (Hc1 & Hc2). apply andb_prop in Hc2 as (Hc2 & Hc3).
      apply String.eqb_eq in Hc1. apply Z.leb_le in Hc2, Hc3. auto.
    - intros (Hr & Hd & Ht1 & Ht2). apply (Permutation_in _ Hp).
      apply filter_In. split; [assumption|].
      rewrite (proj2 (String.eqb_eq _ _) Hd).
      rewrite (proj2 (Z.leb_le _ _) Ht1), (proj2 (Z.leb_le _ _) Ht2). reflexivity. }
  exists (order_by_timestamp_asc sel). split; [|split; [|split]].
  - unfold get_api_data_history. rewrite Hdev, Hdate, (truthy_Str date Hne).
    cbn [negb new_Date]. rewrite Hparse.
    destruct (utc_day_window (D * msPerDay)) as (-> & ->);
      rewrite ?Day_of_midnight; try assumption.
    unfold pool_query. rewrite He. cbn [toISOString bind try_catch].
    unfold select_history, of_device, in_window. cbn [pg_text sql_eq snd fst].
    fold sel. destruct (order_by_timestamp_asc sel); reflexivity.
  - apply Permutation_sym. apply sort_by_perm.
  - exact Hin.
  - intros r Hr. apply Hin in Hr. lia.
Qed.

Lemma history_by_date_exact_window_witness :
  exists rows,
    get_api_data_history iso_date_parse (no_failure 0) sample_db
      (get_device "dev1" [("date", Str "2024-01-01")])
    = respond sample_db 200 (match rows with
                             | [] => no_data_marker
                             | _ :: _ => rows_json rows
                             end)
    /\ Permutation rows
         (filter (fun r => (r_device_id r =? "dev1")%string
                           && ((19723 * msPerDay <=? r_timestamp r)
                               && (r_timestamp r <=? 19723 * msPerDay + 86399999)))
                 (sensor_data sample_db))
    /\ (forall r, In r rows <->
                  In r (sensor_data sample_db) /\ r_device_id r = "dev1" /\
                  19723 * msPerDay <= r_timestamp r <= 19723 * msPerDay + 86399999)
    /\ (forall r, In r rows ->
                  r_timestamp r <> 19723 * msPerDay - 1 /\
                  r_timestamp r <> 19723 * msPerDay + 86399999 + 1).
Proof.
  apply (history_by_date_exact_window iso_date_parse (no_failure 0) sample_db
           (get_device "dev1" [("date", Str "2024-01-01")]) "dev1" "2024-01-01" 19723).
  - reflexivity.
  - reflexivity.
  - discriminate.
  - reflexivity.
  - vm_compute. discriminate.
  - vm_compute. discriminate.
  - reflexivity.
Defined.

(** The example of the specification: of a reading at 2024-01-01T23:59:59.999Z
    and one at 2024-01-02T00:00:00.001Z, the history of 2024-01-01 holds the
    first only (here next to the reading of 00:00:00.000Z, and without the
    one of 2023-12-31T23:59:59.999Z). *)
Example history_of_2024_01_01 :
  get_api_data_history iso_date_parse (no_failure 0) sample_db
    (get_device "dev1" [("date", Str "2024-01-01")])
  = respond sample_db 200
      (rows_json
         [mkReading 4 "dev1" (Num 20) (Num 39) (Num 6) (Num 0) 1704067200000;
          mkReading 1 "dev1" (Num 21) (Num 40) (Num 7) (Num 0) 1704153599999]).
Proof. vm_compute. reflexivity. Qed.

(** C10, as stated, fails: a date parameter that is present but empty is not
    a parseable date, and the reply to it is 400, not 500. *)
Lemma history_empty_date_is_400 :
  field "date" (query (get_device "dev1" [("date", Str "")])) = Str "" /\
  iso_date_parse "" = None /\
  sent (get_api_data_history iso_date_parse (no_failure 0) sample_db
          (get_device "dev1" [("date", Str "")]))
  = Responded 400 (JObj [("error", str "Date parameter is required")]).
Proof. repeat split. Qed.

(** C10, amended. A date parameter that is present, not empty and not a
    parseable date string makes HistoryByDate answer 500: the date conversion
    throws and the handler's catch block answers. An absent or an empty date
    parameter is answered 400. *)
Theorem history_unparseable_date_is_500
    (Date_parse : string -> option Z) (e : env) (d : db) (req : request) :
  (forall date,
     field "date" (query req) = Str date ->
     date <> "" ->
     Date_parse date = None ->
     get_api_data_history Date_parse e d req
     = mkReply d
         (Responded 500 (JObj [("error", str "Failed to fetch historical data")]))
         [("Database error:", "Invalid time value")]) /\
  (field "date" (query req) = Undefined \/ field "date" (query req) = Str "" ->
   get_api_data_history Date_parse e d req
   = respond d 400 (JObj [("error", str "Date parameter is required")])).
Proof.
  split.
  - intros date Hdate Hne Hparse.
    unfold get_api_data_history.
    rewrite Hdate, (truthy_Str date Hne). cbn [negb new_Date].
    rewrite Hparse. reflexivity.
  - intros [H|H]; unfold get_api_data_history; rewrite H; reflexivity.
Qed.

Lemma history_unparseable_date_is_500_witness :
  get_api_data_history iso_date_parse (no_failure 0) sample_db
    (get_device "dev1" [("date", Str "yesterday")])
  = mkReply sample_db
      (Responded 500 (JObj [("error", str "Failed to fetch historical data")]))
      [("Database error:", "Invalid time value")]
  /\
  get_api_data_history iso_date_parse (no_failure 0) sample_db
    (get_device "dev1" [])
  = respond sample_db 400 (JObj [("error", str "Date parameter is required")]).
Proof.
  split.
  - apply (history_unparseable_date_is_500 iso_date_parse (no_failure 0) sample_db
             (get_device "dev1" [("date", Str "yesterday")])) with (date := "yesterday").
    + reflexivity.
    + discriminate.
    + reflexivity.
  - apply (history_unparseable_date_is_500 iso_date_parse (no_failure 0) sample_db
             (get_device "dev1" [])).
    left. reflexivity.
Defined.

Lemma truthy_pg_text (v : scalar) :
  truthy v = true -> exists s, pg_text v = Some s.
Proof.
  destruct v as [| |[|]|n|s]; simpl; try discriminate; eauto.
Qed.

(** C5. IngestReading with a falsy (empty or absent) device_id, or with any
    of the four readings undefined, answers 400 and leaves the store as it
    was. With a device_id and four defined readings, zero among them, the
    request passes validation: its reply is 201 with the appended row
    when the store call succeeds and 500 when it fails, never 400. *)
Theorem ingest_validation (e : env) (d : db) (req : request) :
  (truthy (field "device_id" (body req)) = false \/
   field "temperature" (body req) = Undefined \/
   field "humidity" (body req) = Undefined \/
   field "air_quality" (body req) = Undefined \/
   field "lpg_level" (body req) = Undefined ->
   post_api_data e d req
   = respond d 400 (JObj [("error", str "Missing required fields")])) /\
  is_undefined (Num 0) = false /\
  (truthy (field "device_id" (body req)) = true ->
   is_undefined (field "temperature" (body req)) = false ->
   is_undefined (field "humidity" (body req)) = false ->
   is_undefined (field "air_quality" (body req)) = false ->
   is_undefined (field "lpg_level" (body req)) = false ->
   (forall payload, sent (post_api_data e d req) <> Responded 400 payload) /\
   (store_failure e = None ->
    exists id,
      pg_text (field "device_id" (body req)) = Some id /\
      let row := mkReading (next_id d) id
                   (field "temperature" (body req)) (field "humidity" (body req))
                   (field "air_quality" (body req)) (field "lpg_level" (body req))
                   (now e) in
      post_api_data e d req
      = respond (mkDb (users d) (sensor_data d ++ [row]) (next_id d + 1)) 201
          (JObj [("message", str "Data stored successfully");
                 ("data", JObj (reading_object row))])) /\
   (forall message,
      store_failure e = Some message ->
      post_api_data e d req
      = mkReply d (Responded 500 (JObj [("error", str "Failed to store data")]))
                [("Database error:", message)])).
Proof.
  split; [|split; [reflexivity|]].
  - unfold post_api_data.
    intros [H|[H|[H|[H|H]]]]; rewrite H; simpl;
      rewrite ?orb_true_r; reflexivity.
  - intros Hd Ht Hh Ha Hl. unfold post_api_data, pool_query.
    rewrite Hd, Ht, Hh, Ha, Hl. cbn [negb orb].
    destruct (truthy_pg_text _ Hd) as (id & Hid). rewrite Hid.
    split; [|split].
    + intros payload. destruct (store_failure e); simpl; discriminate.
    + intros He. rewrite He. exists id. split; reflexivity.
    + intros message He. rewrite He. reflexivity.
Qed.

Lemma ingest_validation_witness :
  post_api_data (no_failure 1704200000000) sample_db
    (post [("device_id", Str "dev1"); ("temperature", Num 0); ("humidity", Num 0);
           ("lpg_level", Num 0)])
  = respond sample_db 400 (JObj [("error", str "Missing required fields")])
  /\
  exists id,
    pg_text (Str "dev1") = Some id /\
    let row := mkReading 6 id (Num 0) (Num 0) (Num 0) (Num 0) 1704200000000 in
    post_api_data (no_failure 1704200000000) sample_db
      (post [("device_id", Str "dev1"); ("temperature", Num 0); ("humidity", Num 0);
             ("air_quality", Num 0); ("lpg_level", Num 0)])
    = respond (mkDb (users sample_db) (sensor_data sample_db ++ [row]) 7) 201
        (JObj [("message", str "Data stored successfully");
               ("data", JObj (reading_object row))]).
Proof.
  split.
  - apply (ingest_validation (no_failure 1704200000000) sample_db
             (post [("device_id", Str "dev1"); ("temperature", Num 0);
                    ("humidity", Num 0); ("lpg_level", Num 0)])).
    right. right. right. left. reflexivity.
  - apply (ingest_validation (no_failure 1704200000000) sample_db
             (post [("device_id", Str "dev1"); ("temperature", Num 0);
                    ("humidity", Num 0); ("air_quality", Num 0);
                    ("lpg_level", Num 0)])); reflexivity.
Defined.

Lemma latest_after_insert (l : list reading) (new : reading) :
  (forall r, In r l -> r_timestamp r < r_timestamp new) ->
  firstn 1 (order_by_timestamp_desc (l ++ [new])) = [new].
Proof.
  intros Hold. unfold order_by_timestamp_desc.
  assert (Hp := sort_by_perm timestamp_desc (l ++ [new])).
  assert (Hs : StronglySorted (fun a b => timestamp_desc a b = true)
                              (sort_by timestamp_desc (l ++ [new]))).
  { apply sort_by_sorted; unfold timestamp_desc; intros.
    - rewrite !Z.leb_le; lia.
    - rewrite Z.leb_le in *; lia. }
  destruct (sort_by timestamp_desc (l ++ [new])) as [|x s].
  - apply Permutation_sym, Permutation_nil in Hp.
    destruct l; discriminate.
  - simpl. f_equal.
    assert (Hx : In x (l ++ [new]))
      by (apply (Permutation_in _ (Permutation_sym Hp)); now left).
    assert (Hn : In new (x :: s))
      by (apply (Permutation_in _ Hp), in_or_app; right; now left).
    apply in_app_or in Hx as [Hx|[Hx|[]]]; [|now symmetry].
    apply Hold in Hx. destruct Hn as [Hn|Hn]; [now symmetry|].
    apply StronglySorted_inv in Hs as (_ & Hle).
    rewrite Forall_forall in Hle. apply Hle in Hn.
    unfold timestamp_desc in Hn. apply Z.leb_le in Hn. lia.
Qed.

Lemma select_latest_none (dev : string) (d : db) :
  snd (select_latest (Some dev) d) = [] <->
  (forall r, In r (sensor_data d) -> r_device_id r <> dev).
Proof.
  unfold select_latest, select_readings, order_by_timestamp_desc. simpl.
  set (sel := filter (of_device (Some dev)) (sensor_data d)).
  assert (Hp := sort_by_perm timestamp_desc sel).
  split.
  - intros H r Hr Hd.
    assert (Hin : In r sel).
    { apply filter_In. split; [assumption|].
      unfold of_device. now apply sql_eq_text. }
    apply (Permutation_in _ Hp) in Hin.
    destruct (sort_by timestamp_desc sel); [contradiction|discriminate].
  - intros H. destruct sel as [|r sel'] eqn:Hsel; [reflexivity|].
    assert (Hin : In r (filter (of_device (Some dev)) (sensor_data d)))
      by (fold sel; rewrite Hsel; now left).
    apply filter_In in Hin as (Hr & Hd).
    unfold of_device in Hd. apply sql_eq_text in Hd.
    now apply H in Hr.
Qed.

(** C6. A successful IngestReading for a device, at a store clock later than
    every stored timestamp of that device, followed by LatestReading for the
    same device (the store call succeeding), makes LatestReading answer the
    row IngestReading has just returned, which carries the ingested values.
    And when its store call succeeds LatestReading answers 404 exactly when
    the store holds no row of the device. *)
Theorem ingest_then_latest (e1 e2 : env) (d : db) (req1 req2 : request)
    (dev : string) :
  (field "device_id" (body req1) = Str dev ->
   dev <> "" ->
   is_undefined (field "temperature" (body req1)) = false ->
   is_undefined (field "humidity" (body req1)) = false ->
   is_undefined (field "air_quality" (body req1)) = false ->
   is_undefined (field "lpg_level" (body req1)) = false ->
   store_failure e1 = None ->
   (forall r, In r (sensor_data d) -> r_device_id r = dev ->
              r_timestamp r < now e1) ->
   field "device_id" (params req2) = Str dev ->
   store_failure e2 = None ->
   exists row,
     sent (post_api_data e1 d req1)
     = Responded 201 (JObj [("message", str "Data stored successfully");
                            ("data", JObj (reading_object row))])
     /\ r_device_id row = dev
     /\ r_temperature row = field "temperature" (body req1)
     /\ r_humidity row = field "humidity" (body req1)
     /\ r_air_quality row = field "air_quality" (body req1)
     /\ r_lpg_level row = field "lpg_level" (body req1)
     /\ sent (get_api_data_latest e2 (store (post_api_data e1 d req1)) req2)
        = Responded 200 (JObj (reading_object row))) /\
  (field "device_id" (params req2) = Str dev ->
   store_failure e2 = None ->
   (sent (get_api_data_latest e2 d req2)
    = Responded 404 (JObj [("error", str "No data available")])
    <-> forall r, In r (sensor_data d) -> r_device_id r <> dev)).
Proof.
  split.
  - intros Hdev Hne Ht Hh Ha Hl He1 Hfresh Hdev2 He2.
    set (row := mkReading (next_id d) dev
                  (field "temperature" (body req1)) (field "humidity" (body req1))
                  (field "air_quality" (body req1)) (field "lpg_level" (body req1))
                  (now e1)).
    assert (Hpost : post_api_data e1 d req1
                    = respond (mkDb (users d) (sensor_data d ++ [row]) (next_id d + 1))
                        201 (JObj [("message", str "Data stored successfully");
                                   ("data", JObj (reading_object row))])).
    { unfold post_api_data, pool_query.
      rewrite Hdev, (truthy_Str dev Hne), Ht, Hh, Ha, Hl, He1. reflexivity. }
    exists row. rewrite Hpost. repeat (split; [reflexivity|]).
    unfold get_api_data_latest, pool_query. rewrite Hdev2, He2.
    cbn [store respond pg_text bind try_catch].
    unfold select_latest, select_readings. cbn [snd fst sensor_data].
    rewrite filter_app. cbn [filter]. unfold of_device at 2. cbn [r_device_id row].
    rewrite (proj2 (sql_eq_text dev dev) eq_refl).
    rewrite latest_after_insert; [reflexivity|].
    intros r Hr. apply filter_In in Hr as (Hr & Hd).
    unfold of_device in Hd. apply sql_eq_text in Hd.
    now apply Hfresh.
  - intros Hdev2 He2.
    rewrite <- select_latest_none.
    unfold get_api_data_latest, pool_query. rewrite Hdev2, He2.
    cbn [pg_text bind try_catch].
    destruct (select_latest (Some dev) d) as [d' rows]. cbn [snd].
    destruct rows; simpl; split; intros H; try reflexivity; discriminate.
Qed.

Lemma ingest_then_latest_witness :
  (exists row,
     sent (post_api_data (no_failure 1704200000000) sample_db
             (post [("device_id", Str "dev1"); ("temperature", Num 23);
                    ("humidity", Num 0); ("air_quality", Num 12);
                    ("lpg_level", Num 3)]))
     = Responded 201 (JObj [("message", str "Data stored successfully");
                            ("data", JObj (reading_object row))])
     /\ r_device_id row = "dev1"
     /\ r_temperature row = Num 23
     /\ r_humidity row = Num 0
     /\ r_air_quality row = Num 12
     /\ r_lpg_level row = Num 3
     /\ sent (get_api_data_latest (no_failure 1704200000001)
                (store (post_api_data (no_failure 1704200000000) sample_db
                          (post [("device_id", Str "dev1"); ("temperature", Num 23);
                                 ("humidity", Num 0); ("air_quality", Num 12);
                                 ("lpg_level", Num 3)])))
                (get_device "dev1" []))
        = Responded 200 (JObj (reading_object row))) /\
  (sent (get_api_data_latest (no_failure 0) sample_db (get_device "dev9" []))
   = Responded 404 (JObj [("error", str "No data available")])
   <-> forall r, In r (sensor_data sample_db) -> r_device_id r <> "dev9").
Proof.
  split.
  - apply (ingest_then_latest (no_failure 1704200000000) (no_failure 1704200000001)
             sample_db
             (post [("device_id", Str "dev1"); ("temperature", Num 23);
                    ("humidity", Num 0); ("air_quality", Num 12);
                    ("lpg_level", Num 3)])
             (get_device "dev1" []) "dev1"); try reflexivity.
    + discriminate.
    + intros r Hr _. simpl in Hr.
      repeat (destruct Hr as [<-|Hr]; [reflexivity|]). contradiction.
  - apply (ingest_then_latest (no_failure 0) (no_failure 0) sample_db
             (post []) (get_device "dev9" []) "dev9"); reflexivity.
Defined.




(** On a store failure every handler but Login answers 500 with a fixed
    payload, whatever the failure. *)
Lemma store_failure_payload_elsewhere
    (bcrypt_hash : string -> string -> string) (Date_parse : string -> option Z)
    (e : env) (d : db) (req : request) (payload : json) :
  (sent (put_api_signup bcrypt_hash e d req) = Responded 500 payload ->
   payload = JObj [("error", str "Error updating user")]) /\
  (sent (post_api_data e d req) = Responded 500 payload ->
   payload = JObj [("error", str "Failed to store data")]) /\
  (sent (get_api_data e d req) = Responded 500 payload ->
   payload = JObj [("error", str "Failed to fetch data")]) /\
  (sent (get_api_data_latest e d req) = Responded 500 payload ->
   payload = JObj [("error", str "Failed to fetch latest data")]) /\
  (sent (get_api_data_history Date_parse e d req) = Responded 500 payload ->
   payload = JObj [("error", str "Failed to fetch historical data")]) /\
  (sent (post_api_signup_admin bcrypt_hash e d req) = Responded 500 payload ->
   payload = JObj [("error", str "Error processing signup")]).
Proof.
  unfold put_api_signup, post_api_data, get_api_data, get_api_data_latest,
    get_api_data_history, post_api_signup_admin, pool_query, try_catch, bind,
    respond, toISOString.
  repeat split; intros H; branch H; simpl in H; congruence.
Qed.

(** C7 fails on Login: its catch block copies the message of the failure
    into the payload. Here the store refuses the connection and the reply
    carries the address of the store. *)
Theorem login_store_failure_exposes_message :
  post_api_login plain_compare (failure "connect ECONNREFUSED 10.0.0.5:5432")
    sample_db
    (post [("email", Str "ann@example.org"); ("password", Str "secret")])
  = mkReply sample_db
      (Responded 500 (JObj [("message", str "Server error");
                            ("error", str "connect ECONNREFUSED 10.0.0.5:5432")]))
      [("❌ Server Error:", "connect ECONNREFUSED 10.0.0.5:5432")].
Proof. reflexivity. Qed.

(** The same for every failure message and every Login call that reaches the
    store. *)
Lemma login_store_failure_payload
    (bcrypt_compare : string -> string -> bool)
    (e : env) (d : db) (req : request) (message : string) :
  truthy (field "email" (body req)) = true ->
  truthy (field "password" (body req)) = true ->
  store_failure e = Some message ->
  sent (post_api_login bcrypt_compare e d req)
  = Responded 500 (JObj [("message", str "Server error"); ("error", str message)]).
Proof.
  intros Hm Hp He. unfold post_api_login, pool_query.
  rewrite Hm, Hp, He. reflexivity.
Qed.

(** C8 fails on the two signup handlers: [bcrypt.hash] is awaited before
    the [try] block, so its rejection on a request without a password (or
    with one that is not a string) leaves the handler uncaught and no
    response is sent. *)
Theorem signup_without_password_escapes
    (bcrypt_hash : string -> string -> string) (e : env) (d : db) :
  put_api_signup bcrypt_hash e d
    (post [("email", Str "ann@example.org"); ("device_id", Str "dev1")])
  = mkReply d (Escaped "Illegal arguments: undefined, number") [] /\
  post_api_signup_admin bcrypt_hash e d
    (post [("email", Str "ann@example.org"); ("device_id", Str "dev1")])
  = mkReply d (Escaped "Illegal arguments: undefined, number") [].
Proof. split; reflexivity. Qed.

(** Whereas Login, whose [bcrypt.compare] is inside the [try] block, always
    responds. *)
Lemma login_always_responds
    (bcrypt_compare : string -> string -> bool) (e : env) (d : db) (req : request) :
  exists status payload,
    sent (post_api_login bcrypt_compare e d req) = Responded status payload.
Proof.
  unfold post_api_login, pool_query, try_catch, bind, compare, respond.
  repeat match goal with
         | |- context [match ?x with _ => _ end] =>
             lazymatch x with
             | context [match _ with _ => _ end] => fail
             | _ => destruct x; simpl
             end
         end; eauto.
Qed.

Lemma upsert_user_rows (D : string) (email : option string) (pw : string) (d : db) :
  let new := mkUser D email (Some pw) in
  In new (users (fst (upsert_user D email pw d))) /\
  forall u, In u (users (fst (upsert_user D email pw d))) ->
            u = new \/ (In u (users d) /\ u_device_id u <> D).
Proof.
  intros new. unfold upsert_user. cbn [fst users].
  destruct (existsb (fun u => (u_device_id u =? D)%string) (users d)) eqn:Hex.
  - split.
    + apply existsb_exists in Hex as (x & Hx & Hhit).
      apply in_map_iff. exists x. rewrite Hhit. auto.
    + intros u Hu. apply in_map_iff in Hu as (x & <- & Hx).
      destruct (String.eqb_spec (u_device_id x) D); auto.
  - split.
    + apply in_or_app. right. now left.
    + intros u Hu. apply in_app_or in Hu as [Hu|[<-|[]]]; [|now left].
      right. split; [assumption|].
      intros Hd. apply String.eqb_eq in Hd.
      assert (existsb (fun u => (u_device_id u =? D)%string) (users d) = true)
        by (apply existsb_exists; eauto).
      congruence.
Qed.

Lemma select_after_upsert (E D pw : string) (d : db) :
  (forall u, In u (users d) -> u_email u = Some E -> u_device_id u = D) ->
  exists others,
    snd (select_users_by_email (Some E) (fst (upsert_user D (Some E) pw d)))
    = mkUser D (Some E) (Some pw) :: others.
Proof.
  intros Huniq. unfold select_users_by_email. cbn [snd].
  destruct (upsert_user_rows D (Some E) pw d) as (Hnew & Hrows).
  set (l := users (fst (upsert_user D (Some E) pw d))) in *.
  set (new := mkUser D (Some E) (Some pw)) in *.
  assert (Hin : In new (filter (fun u => sql_eq (u_email u) (Some E)) l)).
  { apply filter_In. split; [assumption|]. now apply sql_eq_text. }
  destruct (filter (fun u => sql_eq (u_email u) (Some E)) l) as [|x others] eqn:Hf;
    [contradiction|].
  exists others. f_equal.
  assert (Hx : In x (filter (fun u => sql_eq (u_email u) (Some E)) l))
    by (rewrite Hf; now left).
  apply filter_In in Hx as (Hx & Hm).
  destruct (Hrows x Hx) as [->|(Hold & Hd)]; [reflexivity|].
  exfalso. apply Hd, Huniq; [assumption|].
  destruct (u_email x) as [m|]; [|discriminate].
  apply sql_eq_text in Hm. now subst.
Qed.

(** C1, as stated, fails: a user created with an empty email cannot log in,
    Login answers 400 before it looks the email up. *)
Lemma admin_upsert_then_login_empty_email :
  sent (post_api_signup_admin plain_hash (no_failure 0) empty_db
          (post [("email", Str ""); ("password", Str "secret");
                 ("device_id", Str "dev1")]))
  = Responded 200 (JObj [("message", str "User created/updated successfully");
                         ("user", JObj [("device_id", str "dev1");
                                        ("email", str "")])]) /\
  sent (post_api_login plain_compare (no_failure 0)
          (store (post_api_signup_admin plain_hash (no_failure 0) empty_db
                    (post [("email", Str ""); ("password", Str "secret");
                           ("device_id", Str "dev1")])))
          (post [("email", Str ""); ("password", Str "secret")]))
  = Responded 400 (JObj [("message", str "Missing email or password")]).
Proof. split; reflexivity. Qed.

(** The same with an empty password. *)
Example admin_upsert_then_login_empty_password :
  sent (post_api_login plain_compare (no_failure 0)
          (store (post_api_signup_admin plain_hash (no_failure 0) empty_db
                    (post [("email", Str "ann@example.org"); ("password", Str "");
                           ("device_id", Str "dev1")])))
          (post [("email", Str "ann@example.org"); ("password", Str "")]))
  = Responded 400 (JObj [("message", str "Missing email or password")]).
Proof. reflexivity. Qed.

(** And when another device already has the email: Login checks the
    password against the first row the store returns for the email. *)
Example admin_upsert_then_login_shared_email :
  sent (post_api_login plain_compare (no_failure 0)
          (store (post_api_signup_admin plain_hash (no_failure 0) sample_db
                    (post [("email", Str "ann@example.org"); ("password", Str "other");
                           ("device_id", Str "dev2")])))
          (post [("email", Str "ann@example.org"); ("password", Str "other")]))
  = Responded 401 (JObj [("message", str "Invalid credentials")]).
Proof. reflexivity. Qed.

(** C1, amended. For a non-empty email E, a non-empty password P and a
    non-empty device_id D, strings all three, when no row of another device
    has email E and the store calls succeed, AdminUpsertUser with (E, P, D)
    followed by Login with (E, P) succeeds and Login answers device_id D. *)
Theorem admin_upsert_then_login
    (bcrypt_hash : string -> string -> string)
    (bcrypt_compare : string -> string -> bool)
    (e1 e2 : env) (d : db) (req1 req2 : request) (E P D : string) :
  field "email" (body req1) = Str E ->
  field "password" (body req1) = Str P ->
  field "device_id" (body req1) = Str D ->
  field "email" (body req2) = Str E ->
  field "password" (body req2) = Str P ->
  E <> "" -> P <> "" -> D <> "" ->
  store_failure e1 = None ->
  store_failure e2 = None ->
  bcrypt_compare P (bcrypt_hash (salt e1) P) = true ->
  (forall u, In u (users d) -> u_email u = Some E -> u_device_id u = D) ->
  sent (post_api_signup_admin bcrypt_hash e1 d req1)
  = Responded 200 (JObj [("message", str "User created/updated successfully");
                         ("user", JObj [("device_id", str D); ("email", str E)])]) /\
  sent (post_api_login bcrypt_compare e2
          (store (post_api_signup_admin bcrypt_hash e1 d req1)) req2)
  = Responded 200 (JObj [("message", str "Login successful");
                         ("device_id", str D)]).
Proof.
  intros Hm1 Hp1 Hd1 Hm2 Hp2 HE HP HD He1 He2 Hverify Huniq.
  assert (Hadmin : post_api_signup_admin bcrypt_hash e1 d req1
                   = respond (fst (upsert_user D (Some E) (bcrypt_hash (salt e1) P) d))
                       200 (JObj [("message", str "User created/updated successfully");
                                  ("user", JObj [("device_id", str D);
                                                 ("email", str E)])])).
  { unfold post_api_signup_admin, pool_query.
    rewrite Hm1, Hp1, Hd1, (truthy_Str D HD), He1. reflexivity. }
  rewrite Hadmin. split; [reflexivity|].
  cbn [store respond].
  destruct (select_after_upsert E D (bcrypt_hash (salt e1) P) d Huniq)
    as (others & Hsel).
  unfold post_api_login, pool_query.
  rewrite Hm2, Hp2, (truthy_Str E HE), (truthy_Str P HP), He2.
  cbn [negb orb pg_text bind].
  destruct (select_users_by_email (Some E)
              (fst (upsert_user D (Some E) (bcrypt_hash (salt e1) P) d)))
    as [d' rows] eqn:Hq.
  cbn [snd] in Hsel. subst rows.
  cbn [compare u_password bind]. rewrite Hverify. reflexivity.
Qed.

Lemma admin_upsert_then_login_witness :
  sent (post_api_signup_admin plain_hash (no_failure 0) sample_db
          (post [("email", Str "ann@example.org"); ("password", Str "renewed");
                 ("device_id", Str "dev1")]))
  = Responded 200 (JObj [("message", str "User created/updated successfully");
                         ("user", JObj [("device_id", str "dev1");
                                        ("email", str "ann@example.org")])]) /\
  sent (post_api_login plain_compare (no_failure 1)
          (store (post_api_signup_admin plain_hash (no_failure 0) sample_db
                    (post [("email", Str "ann@example.org"); ("password", Str "renewed");
                           ("device_id", Str "dev1")])))
          (post [("email", Str "ann@example.org"); ("password", Str "renewed")]))
  = Responded 200 (JObj [("message", str "Login successful");
                         ("device_id", str "dev1")]).
Proof.
  apply (admin_upsert_then_login plain_hash plain_compare (no_failure 0) (no_failure 1)
           sample_db
           (post [("email", Str "ann@example.org"); ("password", Str "renewed");
                  ("device_id", Str "dev1")])
           (post [("email", Str "ann@example.org"); ("password", Str "renewed")])
           "ann@example.org" "renewed" "dev1");
    try reflexivity; try discriminate.
  intros u [<-|[]] _. reflexivity.
Defined.

Lemma update_user_rows (email : option string) (pw D : string) (d : db) :
  forall u, In u (users (fst (update_user email pw (Some D) d))) ->
            (u_device_id u = D /\ u_password u = Some pw) \/
            (In u (users d) /\ u_device_id u <> D).
Proof.
  intros u Hu. unfold update_user in Hu. cbn [fst users] in Hu.
  apply in_map_iff in Hu as (x & <- & Hx). cbn [sql_eq].
  destruct (String.eqb_spec (u_device_id x) D); auto.
Qed.

Lemma update_user_returning (email : option string) (pw D : string) (d : db)
    (row : user_row) (others : list user_row) :
  snd (update_user email pw (Some D) d) = row :: others ->
  exists u, In u (users (fst (update_user email pw (Some D) d))) /\ u_device_id u = D.
Proof.
  unfold update_user. cbn [fst snd users]. intros Hrows.
  destruct (filter (fun u => sql_eq (Some (u_device_id u)) (Some D)) (users d))
    as [|x l] eqn:Hf; [discriminate|].
  assert (Hx : In x (filter (fun u => sql_eq (Some (u_device_id u)) (Some D)) (users d)))
    by (rewrite Hf; now left).
  apply filter_In in Hx as (Hx & Hhit).
  exists (mkUser (u_device_id x) email (Some pw)). split.
  - apply in_map_iff. exists x. rewrite Hhit. auto.
  - now apply sql_eq_text in Hhit.
Qed.

Lemma has_password_field_of_text (c : option string) :
  has_password_field (of_text c) = false.
Proof. destruct c; reflexivity. Qed.

Lemma stored_is_plaintext_iff (u : user_row) (stored plaintext : string) :
  u_password u = Some stored ->
  (u_password u = Some plaintext <-> stored = plaintext).
Proof. intros ->. split; congruence. Qed.

(** C9. Every successful UpdateUserCredentials or AdminUpsertUser call
    carries a string password P and a device D, and writes
    [bcrypt.hash(P, 10)] as the password of the rows of D, leaving the other
    rows as they were: what the store holds is the output of the hash, and
    it is the plaintext only if the hash returned its own input. Login
    writes nothing to the store, whatever the request. And no payload these
    three operations respond with, to any request, has a password field. *)
Theorem passwords_hashed_and_stripped
    (bcrypt_hash : string -> string -> string)
    (bcrypt_compare : string -> string -> bool)
    (e : env) (d : db) (req : request) :
  (forall payload,
     sent (put_api_signup bcrypt_hash e d req) = Responded 200 payload ->
     exists P D,
       field "password" (body req) = Str P /\
       pg_text (field "device_id" (body req)) = Some D /\
       password_stored d (store (put_api_signup bcrypt_hash e d req)) D P
                       (bcrypt_hash (salt e) P)) /\
  (forall payload,
     sent (post_api_signup_admin bcrypt_hash e d req) = Responded 200 payload ->
     exists P D,
       field "password" (body req) = Str P /\
       pg_text (field "device_id" (body req)) = Some D /\
       password_stored d (store (post_api_signup_admin bcrypt_hash e d req)) D P
                       (bcrypt_hash (salt e) P)) /\
  store (post_api_login bcrypt_compare e d req) = d /\
  (forall status payload,
     sent (put_api_signup bcrypt_hash e d req) = Responded status payload \/
     sent (post_api_signup_admin bcrypt_hash e d req) = Responded status payload \/
     sent (post_api_login bcrypt_compare e d req) = Responded status payload ->
     has_password_field payload = false).
Proof.
  split; [|split; [|split]].
  - intros payload. unfold put_api_signup, pool_query, hash.
    destruct (truthy (field "device_id" (body req))) eqn:Hdev; cbn [negb];
      [|discriminate].
    destruct (truthy_pg_text _ Hdev) as (D & HD). rewrite HD.
    destruct (field "password" (body req)) as [| |b|n|P]; try discriminate.
    destruct (store_failure e); cbn [bind try_catch]; [discriminate|].
    destruct (update_user (pg_text (field "email" (body req)))
                (bcrypt_hash (salt e) P) (Some D) d) as [d' rows] eqn:Hq.
    destruct rows as [|row others]; cbn [respond sent store]; [discriminate|].
    intros _. exists P, D. split; [reflexivity|]. split; [reflexivity|].
    assert (Hd' : d' = fst (update_user (pg_text (field "email" (body req)))
                              (bcrypt_hash (salt e) P) (Some D) d))
      by (now rewrite Hq).
    split; [|split].
    + rewrite Hd'. eapply update_user_returning. rewrite Hq. reflexivity.
    + intros u Hu Hsame. rewrite Hd' in Hu.
      destruct (update_user_rows _ _ _ _ u Hu) as [(_ & Hpw)|(_ & Hother)];
        [|contradiction].
      split; [assumption|]. now apply stored_is_plaintext_iff.
    + intros u Hu Hsame. rewrite Hd' in Hu.
      destruct (update_user_rows _ _ _ _ u Hu) as [(Hd & _)|(Hold & _)];
        [contradiction|assumption].
  - intros payload. unfold post_api_signup_admin, pool_query, hash.
    destruct (truthy (field "device_id" (body req))) eqn:Hdev; cbn [negb];
      [|discriminate].
    destruct (truthy_pg_text _ Hdev) as (D & HD). rewrite HD.
    destruct (field "password" (body req)) as [| |b|n|P]; try discriminate.
    destruct (store_failure e); cbn [bind try_catch]; [discriminate|].
    cbn [upsert_user respond sent store]. intros _.
    exists P, D. split; [reflexivity|]. split; [reflexivity|].
    destruct (upsert_user_rows D (pg_text (field "email" (body req)))
                (bcrypt_hash (salt e) P) d) as (Hnew & Hrows).
    unfold upsert_user in Hnew, Hrows. cbn [fst] in Hnew, Hrows.
    split; [|split].
    + eexists. split; [exact Hnew|reflexivity].
    + intros u Hu Hsame. destruct (Hrows u Hu) as [->|(_ & Hother)];
        [|contradiction].
      split; [reflexivity|]. now apply stored_is_plaintext_iff.
    + intros u Hu Hsame. destruct (Hrows u Hu) as [->|(Hold & _)];
        [now contradiction Hsame|assumption].
  - unfold post_api_login, pool_query, select_users_by_email, try_catch, bind,
      compare, respond.
    repeat match goal with
           | |- context [match ?x with _ => _ end] =>
               lazymatch x with
               | context [match _ with _ => _ end] => fail
               | _ => destruct x; simpl
               end
           end; reflexivity.
  - intros status payload [H|[H|H]];
      unfold put_api_signup, post_api_signup_admin, post_api_login, pool_query,
        try_catch, bind, compare, respond in H;
      branch H; simpl in H; injection H as _ <-; simpl;
      rewrite ?has_password_field_of_text; reflexivity.
Qed.

Lemma passwords_hashed_and_stripped_witness :
  (exists P D,
     field "password" (body (post [("email", Str "ann@example.org");
                                   ("password", Str "renewed");
                                   ("device_id", Str "dev1")])) = Str P /\
     pg_text (field "device_id" (body (post [("email", Str "ann@example.org");
                                             ("password", Str "renewed");
                                             ("device_id", Str "dev1")]))) = Some D /\
     password_stored sample_db
       (store (put_api_signup plain_hash (no_failure 0) sample_db
                 (post [("email", Str "ann@example.org"); ("password", Str "renewed");
                        ("device_id", Str "dev1")])))
       D P (plain_hash (salt (no_failure 0)) P)) /\
  store (post_api_login plain_compare (no_failure 0) sample_db
           (post [("email", Str "ann@example.org"); ("password", Str "secret")]))
  = sample_db /\
  has_password_field
    (JObj [("message", str "User updated successfully");
           ("user", JObj [("device_id", str "dev1");
                          ("email", str "ann@example.org")])]) = false.
Proof.
  pose proof (passwords_hashed_and_stripped plain_hash plain_compare (no_failure 0)
                sample_db
                (post [("email", Str "ann@example.org"); ("password", Str "renewed");
                       ("device_id", Str "dev1")]))
    as (Hsignup & _ & _ & Hstrip).
  pose proof (passwords_hashed_and_stripped plain_hash plain_compare (no_failure 0)
                sample_db
                (post [("email", Str "ann@example.org"); ("password", Str "secret")]))
    as (_ & _ & Hlogin & _).
  split; [|split].
  - eapply Hsignup. reflexivity.
  - exact Hlogin.
  - eapply Hstrip. left. reflexivity.
Defined.

(** ** Further properties of the handlers *)

(** Case analysis on whatever the goal still branches on, innermost first. *)
Ltac branches :=
  repeat match goal with
         | |- context [match ?x with _ => _ end] =>
             lazymatch x with
             | context [match _ with _ => _ end] => fail
             | _ => destruct x eqn:?; simpl
             end
         end.

Ltac unfold_handlers :=
  unfold put_api_signup, post_api_login, post_api_data, get_api_data,
    get_api_data_latest, get_api_data_history, post_api_signup_admin,
    pool_query, try_catch, bind, respond, toISOString, hash, compare.

(** X1. Login and the three GET handlers never change the store, whatever the
    request and whatever the store call does. *)
Theorem readers_leave_store
    (bcrypt_compare : string -> string -> bool) (Date_parse : string -> option Z)
    (e : env) (d : db) (req : request) :
  store (post_api_login bcrypt_compare e d req) = d /\
  store (get_api_data e d req) = d /\
  store (get_api_data_latest e d req) = d /\
  store (get_api_data_history Date_parse e d req) = d.
Proof.
  unfold_handlers.
  unfold select_users_by_email, select_readings, select_latest, select_history.
  repeat split; branches; try reflexivity; congruence.
Qed.

Lemma update_user_nothing (email : option string) (pw : string)
    (dev : option string) (d : db) :
  snd (update_user email pw dev d) = [] ->
  fst (update_user email pw dev d) = d.
Proof.
  unfold update_user. cbn [fst snd]. intros Hrows.
  destruct d as [us rs n]. cbn [users sensor_data next_id] in *. f_equal.
  rewrite <- (map_id us) at 2. apply map_ext_in. intros u Hu.
  destruct (sql_eq (Some (u_device_id u)) dev) eqn:Hhit; [|reflexivity].
  exfalso.
  assert (Hin : In u (filter (fun u => sql_eq (Some (u_device_id u)) dev) us))
    by (apply filter_In; auto).
  destruct (filter _ us); [contradiction|discriminate].
Qed.

(** X2. A writer changes the store on success only: any reply of
    UpdateUserCredentials or AdminUpsertUser other than 200, and any reply
    of IngestReading other than 201, leaves the store as it was. *)
Theorem writers_change_store_on_success_only
    (bcrypt_hash : string -> string -> string)
    (e : env) (d : db) (req : request) :
  (status_of (sent (put_api_signup bcrypt_hash e d req)) = Some 200 \/
   store (put_api_signup bcrypt_hash e d req) = d) /\
  (status_of (sent (post_api_signup_admin bcrypt_hash e d req)) = Some 200 \/
   store (post_api_signup_admin bcrypt_hash e d req) = d) /\
  (status_of (sent (post_api_data e d req)) = Some 201 \/
   store (post_api_data e d req) = d).
Proof.
  split; [|split].
  - unfold put_api_signup, pool_query.
    destruct (truthy (field "device_id" (body req))); cbn [negb]; [|now right].
    destruct (hash bcrypt_hash e (field "password" (body req))) as [h|m];
      [|now right].
    destruct (store_failure e); cbn [bind try_catch]; [now right|].
    pose proof (update_user_nothing (pg_text (field "email" (body req))) h
                  (pg_text (field "device_id" (body req))) d) as Hnone.
    destruct (update_user _ h _ d) as [d' rows]. cbn [fst snd] in Hnone.
    destruct rows; cbn [respond sent store status_of]; auto.
  - unfold post_api_signup_admin, pool_query.
    destruct (truthy (field "device_id" (body req))); cbn [negb]; [|now right].
    destruct (hash bcrypt_hash e (field "password" (body req))) as [h|m];
      [|now right].
    destruct (store_failure e); cbn [bind try_catch]; [now right|].
    destruct (pg_text (field "device_id" (body req))); cbn; auto.
  - unfold post_api_data, pool_query.
    destruct (negb _ || _ || _ || _ || _); [now right|].
    destruct (store_failure e); cbn [bind try_catch]; [now right|].
    destruct (pg_text (field "device_id" (body req))); cbn; auto.
Qed.

Lemma update_user_device_ids (email : option string) (pw : string)
    (dev : option string) (d : db) :
  device_ids (fst (update_user email pw dev d)) = device_ids d /\
  sensor_data (fst (update_user email pw dev d)) = sensor_data d /\
  next_id (fst (update_user email pw dev d)) = next_id d.
Proof.
  unfold update_user, device_ids. cbn [fst users sensor_data next_id].
  split; [|split; reflexivity].
  rewrite map_map. apply map_ext. intros u.
  destruct (sql_eq (Some (u_device_id u)) dev); reflexivity.
Qed.

(** X3. UpdateUserCredentials never adds, removes or re-keys a user row: the
    device_id column is the same after as before, whatever the request. The
    two signup handlers never touch the readings, and IngestReading never
    touches the users. *)
Theorem handlers_keep_to_their_table
    (bcrypt_hash : string -> string -> string)
    (e : env) (d : db) (req : request) :
  device_ids (store (put_api_signup bcrypt_hash e d req)) = device_ids d /\
  sensor_data (store (put_api_signup bcrypt_hash e d req)) = sensor_data d /\
  sensor_data (store (post_api_signup_admin bcrypt_hash e d req)) = sensor_data d /\
  users (store (post_api_data e d req)) = users d.
Proof.
  split; [|split; [|split]].
  - unfold put_api_signup, pool_query.
    destruct (truthy (field "device_id" (body req))); cbn [negb]; [|reflexivity].
    destruct (hash bcrypt_hash e (field "password" (body req))) as [h|m];
      [|reflexivity].
    destruct (store_failure e); cbn [bind try_catch]; [reflexivity|].
    pose proof (update_user_device_ids (pg_text (field "email" (body req))) h
                  (pg_text (field "device_id" (body req))) d) as (Hids & _).
    destruct (update_user _ h _ d) as [d' rows]. cbn [fst] in Hids.
    destruct rows; exact Hids.
  - unfold put_api_signup, pool_query.
    destruct (truthy (field "device_id" (body req))); cbn [negb]; [|reflexivity].
    destruct (hash bcrypt_hash e (field "password" (body req))) as [h|m];
      [|reflexivity].
    destruct (store_failure e); cbn [bind try_catch]; [reflexivity|].
    pose proof (update_user_device_ids (pg_text (field "email" (body req))) h
                  (pg_text (field "device_id" (body req))) d) as (_ & Hrs & _).
    destruct (update_user _ h _ d) as [d' rows]. cbn [fst] in Hrs.
    destruct rows; exact Hrs.
  - unfold post_api_signup_admin, pool_query.
    destruct (truthy (field "device_id" (body req))); cbn [negb]; [|reflexivity].
    destruct (hash bcrypt_hash e (field "password" (body req))) as [h|m];
      [|reflexivity].
    destruct (store_failure e); cbn [bind try_catch]; [reflexivity|].
    destruct (pg_text (field "device_id" (body req))); reflexivity.
  - unfold post_api_data, pool_query.
    destruct (negb _ || _ || _ || _ || _); [reflexivity|].
    destruct (store_failure e); cbn [bind try_catch]; [reflexivity|].
    destruct (pg_text (field "device_id" (body req))); reflexivity.
Qed.

Lemma upsert_user_device_ids (D : string) (email : option string) (pw : string)
    (d : db) :
  device_ids (fst (upsert_user D email pw d))
  = if existsb (fun u => (u_device_id u =? D)%string) (users d)
    then device_ids d
    else (device_ids d ++ [D])%list.
Proof.
  unfold upsert_user, device_ids. cbn [fst users].
  destruct (existsb _ (users d)).
  - rewrite map_map. apply map_ext. intros u.
    destruct (String.eqb_spec (u_device_id u) D); [now subst|reflexivity].
  - rewrite map_app. reflexivity.
Qed.

Lemma existsb_device_ids (D : string) (d : db) :
  existsb (fun u => (u_device_id u =? D)%string) (users d) = true
  <-> In D (device_ids d).
Proof.
  unfold device_ids. rewrite existsb_exists, in_map_iff.
  split; intros (u & H1 & H2).
  - apply String.eqb_eq in H2. eauto.
  - exists u. split; [assumption|]. now apply String.eqb_eq.
Qed.

(** X4. AdminUpsertUser keeps the device_id column free of duplicates: it never
    drops a device, on success the device of the request has a row, and a
    device that already had a row gets no second one (the table keeps its
    length). *)
Theorem admin_upsert_keeps_devices_unique
    (bcrypt_hash : string -> string -> string)
    (e : env) (d : db) (req : request) (D : string) :
  NoDup (device_ids d) ->
  pg_text (field "device_id" (body req)) = Some D ->
  NoDup (device_ids (store (post_api_signup_admin bcrypt_hash e d req))) /\
  (forall D', In D' (device_ids d) ->
              In D' (device_ids (store (post_api_signup_admin bcrypt_hash e d req)))) /\
  (status_of (sent (post_api_signup_admin bcrypt_hash e d req)) = Some 200 ->
   In D (device_ids (store (post_api_signup_admin bcrypt_hash e d req))) /\
   (In D (device_ids d) ->
    List.length (users (store (post_api_signup_admin bcrypt_hash e d req)))
    = List.length (users d))).
Proof.
  intros Hnd HD. unfold post_api_signup_admin, pool_query. rewrite HD.
  destruct (truthy (field "device_id" (body req))); cbn [negb];
    [|repeat split; auto; discriminate].
  destruct (hash bcrypt_hash e (field "password" (body req))) as [h|m];
    [|repeat split; auto; discriminate].
  destruct (store_failure e); cbn [bind try_catch];
    [repeat split; auto; discriminate|].
  change (upsert_user D (pg_text (field "email" (body req))) h d)
    with (fst (upsert_user D (pg_text (field "email" (body req))) h d),
          [mkUser D (pg_text (field "email" (body req))) (Some h)]).
  cbn [bind try_catch respond sent store status_of].
  rewrite upsert_user_device_ids.
  destruct (existsb _ (users d)) eqn:Hex.
  - apply existsb_device_ids in Hex.
    repeat split; auto.
    intros _. unfold upsert_user. cbn [fst users].
    apply existsb_device_ids in Hex. rewrite Hex. apply length_map.
  - assert (Hnot : ~ In D (device_ids d)).
    { intros Hin. apply existsb_device_ids in Hin. congruence. }
    repeat split.
    + apply NoDup_app; repeat split; auto.
      * constructor; [intros []|constructor].
      * intros x Hx [<-|[]]. contradiction.
    + intros D' HD'. apply in_or_app. now left.
    + apply in_or_app. right. now left.
    + intros Hin. contradiction.
Qed.

Lemma admin_upsert_keeps_devices_unique_witness :
  NoDup (device_ids (store (post_api_signup_admin plain_hash (no_failure 0)
                              two_users_db
                              (post [("email", Str "cat@example.org");
                                     ("password", Str "meow");
                                     ("device_id", Str "dev2")])))) /\
  (forall D', In D' (device_ids two_users_db) ->
              In D' (device_ids (store (post_api_signup_admin plain_hash (no_failure 0)
                                          two_users_db
                                          (post [("email", Str "cat@example.org");
                                                 ("password", Str "meow");
                                                 ("device_id", Str "dev2")]))))) /\
  (status_of (sent (post_api_signup_admin plain_hash (no_failure 0) two_users_db
                      (post [("email", Str "cat@example.org");
                             ("password", Str "meow");
                             ("device_id", Str "dev2")]))) = Some 200 ->
   In "dev2" (device_ids (store (post_api_signup_admin plain_hash (no_failure 0)
                                   two_users_db
                                   (post [("email", Str "cat@example.org");
                                          ("password", Str "meow");
                                          ("device_id", Str "dev2")])))) /\
   (In "dev2" (device_ids two_users_db) ->
    List.length (users (store (post_api_signup_admin plain_hash (no_failure 0)
                            two_users_db
                            (post [("email", Str "cat@example.org");
                                   ("password", Str "meow");
                                   ("device_id", Str "dev2")]))))
    = List.length (users two_users_db))).
Proof.
  apply (admin_upsert_keeps_devices_unique plain_hash (no_failure 0) two_users_db
           (post [("email", Str "cat@example.org"); ("password", Str "meow");
                  ("device_id", Str "dev2")]) "dev2").
  - repeat constructor; simpl; intuition discriminate.
  - reflexivity.
Defined.

(** X5. Login, IngestReading and the three GET handlers send a response to
    every request, in every environment: nothing they run into leaves them
    uncaught. *)
Theorem handlers_always_respond
    (bcrypt_compare : string -> string -> bool) (Date_parse : string -> option Z)
    (e : env) (d : db) (req : request) :
  status_of (sent (post_api_login bcrypt_compare e d req)) <> None /\
  status_of (sent (post_api_data e d req)) <> None /\
  status_of (sent (get_api_data e d req)) <> None /\
  status_of (sent (get_api_data_latest e d req)) <> None /\
  status_of (sent (get_api_data_history Date_parse e d req)) <> None.
Proof.
  unfold_handlers. repeat split; branches; discriminate.
Qed.

(** X6. The two signup handlers fail to respond exactly when the device_id is
    truthy and the password is not a string; the error that escapes them is
    the one of [bcrypt.hash]. With a falsy device_id the missing password is
    never looked at. *)
Theorem signup_escapes_exactly_without_string_password
    (bcrypt_hash : string -> string -> string)
    (e : env) (d : db) (req : request) (message : string) :
  (sent (put_api_signup bcrypt_hash e d req) = Escaped message <->
   truthy (field "device_id" (body req)) = true /\
   is_string (field "password" (body req)) = false /\
   message = "Illegal arguments: " ++ typeof (field "password" (body req))
             ++ ", number") /\
  (sent (post_api_signup_admin bcrypt_hash e d req) = Escaped message <->
   truthy (field "device_id" (body req)) = true /\
   is_string (field "password" (body req)) = false /\
   message = "Illegal arguments: " ++ typeof (field "password" (body req))
             ++ ", number").
Proof.
  split.
  - unfold put_api_signup, pool_query, hash.
    destruct (truthy (field "device_id" (body req))); cbn [negb].
    + destruct (field "password" (body req)); cbn [is_string typeof sent];
        try (split; [intros H; injection H as <-; auto
                    |intros (_ & _ & ->); reflexivity]).
      split; [|intros (_ & H & _); discriminate].
      destruct (store_failure e); cbn [bind try_catch sent]; [discriminate|].
      destruct (update_user _ _ _ d) as [d' [|row rows]]; discriminate.
    + split; [discriminate|intros (H & _); discriminate].
  - unfold post_api_signup_admin, pool_query, hash.
    destruct (truthy (field "device_id" (body req))); cbn [negb].
    + destruct (field "password" (body req)); cbn [is_string typeof sent];
        try (split; [intros H; injection H as <-; auto
                    |intros (_ & _ & ->); reflexivity]).
      split; [|intros (_ & H & _); discriminate].
      destruct (store_failure e); cbn [bind try_catch sent]; [discriminate|].
      destruct (pg_text (field "device_id" (body req))); discriminate.
    + split; [discriminate|intros (H & _); discriminate].
Qed.

(** X7. The status codes each handler can answer with. In particular Login
    never answers 404, HistoryByDate never answers 404 (an empty day is a
    200), ListReadings never rejects a request, and only IngestReading
    answers 201. *)
Theorem handler_status_codes
    (bcrypt_hash : string -> string -> string)
    (bcrypt_compare : string -> string -> bool) (Date_parse : string -> option Z)
    (e : env) (d : db) (req : request) :
  In (status_of (sent (put_api_signup bcrypt_hash e d req)))
     [Some 200; Some 400; Some 404; Some 500; None] /\
  In (status_of (sent (post_api_login bcrypt_compare e d req)))
     [Some 200; Some 400; Some 401; Some 500] /\
  In (status_of (sent (post_api_data e d req))) [Some 201; Some 400; Some 500] /\
  In (status_of (sent (get_api_data e d req))) [Some 200; Some 500] /\
  In (status_of (sent (get_api_data_latest e d req))) [Some 200; Some 404; Some 500] /\
  In (status_of (sent (get_api_data_history Date_parse e d req)))
     [Some 200; Some 400; Some 500] /\
  In (status_of (sent (post_api_signup_admin bcrypt_hash e d req)))
     [Some 200; Some 400; Some 500; None].
Proof.
  unfold_handlers. repeat split; branches; simpl; tauto.
Qed.

(** X8. A handler answers 400 exactly when its guard rejects the request: a
    falsy device_id for the two signups; a falsy email or password for
    Login; a falsy device_id or an undefined reading for IngestReading; a
    falsy date for HistoryByDate. *)
Theorem validation_failures_are_the_guards
    (bcrypt_hash : string -> string -> string)
    (bcrypt_compare : string -> string -> bool) (Date_parse : string -> option Z)
    (e : env) (d : db) (req : request) :
  (status_of (sent (put_api_signup bcrypt_hash e d req)) = Some 400 <->
   truthy (field "device_id" (body req)) = false) /\
  (status_of (sent (post_api_signup_admin bcrypt_hash e d req)) = Some 400 <->
   truthy (field "device_id" (body req)) = false) /\
  (status_of (sent (post_api_login bcrypt_compare e d req)) = Some 400 <->
   truthy (field "email" (body req)) = false \/
   truthy (field "password" (body req)) = false) /\
  (status_of (sent (post_api_data e d req)) = Some 400 <->
   truthy (field "device_id" (body req)) = false \/
   field "temperature" (body req) = Undefined \/
   field "humidity" (body req) = Undefined \/
   field "air_quality" (body req) = Undefined \/
   field "lpg_level" (body req) = Undefined) /\
  (status_of (sent (get_api_data_history Date_parse e d req)) = Some 400 <->
   truthy (field "date" (query req)) = false).
Proof.
  split; [|split; [|split; [|split]]].
  - unfold_handlers.
    destruct (truthy (field "device_id" (body req))); cbn [negb].
    + split; [intros H; branch H|discriminate].
    + split; reflexivity.
  - unfold_handlers.
    destruct (truthy (field "device_id" (body req))); cbn [negb].
    + split; [intros H; branch H|discriminate].
    + split; reflexivity.
  - unfold_handlers.
    destruct (truthy (field "email" (body req)));
      destruct (truthy (field "password" (body req))); cbn [negb orb];
      try (split; [auto|reflexivity]).
    split; [intros H; branch H|intros [H|H]; discriminate].
  - unfold_handlers.
    destruct (truthy (field "device_id" (body req))); cbn [negb orb];
      [|split; [auto|reflexivity]].
    destruct (field "temperature" (body req)); cbn [is_undefined orb];
      try (split; [auto|reflexivity]);
      (destruct (field "humidity" (body req)); cbn [is_undefined orb];
       try (split; [auto|reflexivity]);
       (destruct (field "air_quality" (body req)); cbn [is_undefined orb];
        try (split; [auto|reflexivity]);
        (destruct (field "lpg_level" (body req)); cbn [is_undefined orb];
         try (split; [auto 6|reflexivity]);
         (split; [intros H; branch H
                 |intros [H|[H|[H|[H|H]]]]; discriminate])))).
  - unfold_handlers.
    destruct (truthy (field "date" (query req))); cbn [negb].
    + split; [intros H; branch H|discriminate].
    + split; reflexivity.
Qed.

Lemma timestamp_desc_strongly_sorted (l : list reading) :
  StronglySorted (fun a b => timestamp_desc a b = true)
                 (order_by_timestamp_desc l).
Proof.
  apply sort_by_sorted; unfold timestamp_desc; intros.
  - rewrite !Z.leb_le; lia.
  - rewrite Z.leb_le in *; lia.
Qed.

Lemma reading_object_inj (a b : reading) :
  reading_object a = reading_object b -> a = b.
Proof.
  destruct a, b. unfold reading_object. cbn. intros H.
  injection H as -> -> -> -> -> -> ->. reflexivity.
Qed.

(** X9. When the store call succeeds ListReadings answers 200 with exactly the
    stored rows of the device, each once, and nothing of another device; for
    a device without readings that is 200 with the empty array, not an
    error. *)
Theorem list_readings_exactly_the_device_rows
    (e : env) (d : db) (req : request) (dev : string) :
  field "device_id" (params req) = Str dev ->
  store_failure e = None ->
  exists rows,
    get_api_data e d req = respond d 200 (rows_json rows) /\
    Permutation rows (readings_of dev d) /\
    (forall r, In r rows <-> In r (sensor_data d) /\ r_device_id r = dev) /\
    (readings_of dev d = [] -> rows_json rows = JArr []).
Proof.
  intros Hdev He.
  exists (order_by_timestamp_desc (readings_of dev d)).
  assert (Hp : Permutation (order_by_timestamp_desc (readings_of dev d))
                           (readings_of dev d))
    by (apply Permutation_sym, sort_by_perm).
  split; [|split; [|split]].
  - unfold get_api_data, pool_query. rewrite Hdev, He. reflexivity.
  - exact Hp.
  - intros r. split.
    + intros Hr. apply (Permutation_in _ Hp) in Hr.
      apply filter_In in Hr as (Hr & Hd). apply String.eqb_eq in Hd. auto.
    + intros (Hr & Hd). apply (Permutation_in _ (Permutation_sym Hp)).
      apply filter_In. split; [assumption|]. now apply String.eqb_eq.
  - intros Hnone. rewrite Hnone. reflexivity.
Qed.

Lemma list_readings_exactly_the_device_rows_witness :
  exists rows,
    get_api_data (no_failure 0) sample_db (get_device "dev2" [])
    = respond sample_db 200 (rows_json rows) /\
    Permutation rows (readings_of "dev2" sample_db) /\
    (forall r, In r rows <-> In r (sensor_data sample_db) /\ r_device_id r = "dev2") /\
    (readings_of "dev2" sample_db = [] -> rows_json rows = JArr []).
Proof.
  apply (list_readings_exactly_the_device_rows (no_failure 0) sample_db
           (get_device "dev2" []) "dev2"); reflexivity.
Defined.

(** What [ORDER BY timestamp DESC] promises of the rows it returns, whichever
    way the store orders rows of equal timestamp: they are the selected rows
    and no row comes before a later one. *)
Lemma select_readings_spec (dev : option string) (d : db) :
  Permutation (filter (of_device dev) (sensor_data d))
              (snd (select_readings dev d)) /\
  StronglySorted (fun a b => r_timestamp b <= r_timestamp a)
                 (snd (select_readings dev d)).
Proof.
  unfold select_readings. cbn [snd]. split.
  - apply sort_by_perm.
  - pose proof (timestamp_desc_strongly_sorted
                  (filter (of_device dev) (sensor_data d))) as Hs.
    induction Hs as [|x s Hs IH Hx]; constructor; auto.
    rewrite Forall_forall in *. intros y Hy. apply Hx in Hy.
    unfold timestamp_desc in Hy. now apply Z.leb_le.
Qed.

(** What [ORDER BY timestamp DESC LIMIT 1] promises: no row when none is
    selected, and otherwise one selected row that no selected row is later
    than. *)
Lemma select_latest_spec (dev : option string) (d : db) :
  match snd (select_latest dev d) with
  | [] => filter (of_device dev) (sensor_data d) = []
  | row :: rest =>
      rest = [] /\
      In row (filter (of_device dev) (sensor_data d)) /\
      forall r, In r (filter (of_device dev) (sensor_data d)) ->
                r_timestamp r <= r_timestamp row
  end.
Proof.
  unfold select_latest.
  destruct (select_readings_spec dev d) as (Hp & Hs).
  destruct (snd (select_readings dev d)) as [|x s]; cbn [firstn].
  - now apply Permutation_nil, Permutation_sym.
  - split; [reflexivity|]. split.
    + apply (Permutation_in _ (Permutation_sym Hp)). now left.
    + intros r Hr. apply (Permutation_in _ Hp) in Hr.
      destruct Hr as [<-|Hr]; [lia|].
      apply StronglySorted_inv in Hs as (_ & Hle).
      rewrite Forall_forall in Hle. now apply Hle.
Qed.

(** X10. LatestReading agrees with the head of ListReadings: whenever
    ListReadings answers an array, LatestReading in the same environment
    answers 404 if the array is empty, and otherwise 200 with a stored row
    of the device that carries the timestamp of the first element of the
    array. (On a tie the two queries are free to return different rows of
    that timestamp; the proof uses only what each ORDER BY promises.) *)
Theorem latest_matches_head_of_list (e : env) (d : db) (req : request)
    (items : list json) :
  sent (get_api_data e d req) = Responded 200 (JArr items) ->
  match items with
  | [] => sent (get_api_data_latest e d req)
          = Responded 404 (JObj [("error", str "No data available")])
  | first :: _ =>
      exists row,
        sent (get_api_data_latest e d req)
        = Responded 200 (JObj (reading_object row)) /\
        r_timestamp row = timestamp_of first /\
        In row (sensor_data d) /\
        of_device (pg_text (field "device_id" (params req))) row = true
  end.
Proof.
  unfold get_api_data, get_api_data_latest, pool_query.
  destruct (store_failure e); cbn [bind try_catch respond sent]; [discriminate|].
  set (dev := pg_text (field "device_id" (params req))).
  pose proof (select_readings_spec dev d) as (Hp & Hs).
  pose proof (select_latest_spec dev d) as Hlatest.
  destruct (select_readings dev d) as [d1 listed].
  destruct (select_latest dev d) as [d2 latest].
  cbn [snd] in *. cbn [bind try_catch respond sent].
  intros H. injection H as <-.
  destruct listed as [|x s]; cbn [map].
  - apply Permutation_sym, Permutation_nil in Hp.
    destruct latest as [|row rest]; [reflexivity|].
    destruct Hlatest as (_ & Hin & _). rewrite Hp in Hin. contradiction.
  - destruct latest as [|row rest].
    + rewrite Hlatest in Hp. apply Permutation_nil in Hp. discriminate.
    + destruct Hlatest as (_ & Hrow & Hmax).
      exists row. split; [reflexivity|].
      assert (Hx : In x (filter (of_device dev) (sensor_data d)))
        by (apply (Permutation_in _ (Permutation_sym Hp)); now left).
      assert (Hle : r_timestamp row <= r_timestamp x).
      { apply (Permutation_in _ Hp) in Hrow.
        destruct Hrow as [<-|Hrow]; [lia|].
        apply StronglySorted_inv in Hs as (_ & Hle).
        rewrite Forall_forall in Hle. now apply Hle. }
      apply Hmax in Hx.
      apply filter_In in Hrow as (Hstored & Hdev).
      repeat split; auto.
      change (timestamp_of (JObj (reading_object x))) with (r_timestamp x). lia.
Qed.

Lemma latest_matches_head_of_list_witness :
  exists row,
    sent (get_api_data_latest (no_failure 0) sample_db (get_device "dev1" []))
    = Responded 200 (JObj (reading_object row)) /\
    r_timestamp row = 1704153600001 /\
    In row (sensor_data sample_db) /\
    of_device (Some "dev1") row = true.
Proof.
  exact (latest_matches_head_of_list (no_failure 0) sample_db (get_device "dev1" [])
           (map (fun r => JObj (reading_object r))
                [mkReading 2 "dev1" (Num 22) (Num 41) (Num 7) (Num 0) 1704153600001;
                 mkReading 1 "dev1" (Num 21) (Num 40) (Num 7) (Num 0) 1704153599999;
                 mkReading 4 "dev1" (Num 20) (Num 39) (Num 6) (Num 0) 1704067200000;
                 mkReading 5 "dev1" (Num 18) (Num 38) (Num 6) (Num 0) 1704067199999])
           eq_refl).
Defined.

(** X11. The row LatestReading answers is a stored row of the device, and no
    stored row of the device has a later timestamp. *)
Theorem latest_reading_is_most_recent
    (e : env) (d : db) (req : request) (dev : string) (row : reading) :
  field "device_id" (params req) = Str dev ->
  sent (get_api_data_latest e d req) = Responded 200 (JObj (reading_object row)) ->
  In row (sensor_data d) /\ r_device_id row = dev /\
  (forall r, In r (sensor_data d) -> r_device_id r = dev ->
             r_timestamp r <= r_timestamp row).
Proof.
  intros Hdev. unfold get_api_data_latest, pool_query, select_latest, select_readings.
  rewrite Hdev.
  destruct (store_failure e); cbn [bind try_catch respond sent pg_text snd];
    [discriminate|].
  pose proof (timestamp_desc_strongly_sorted
                (filter (of_device (Some dev)) (sensor_data d))) as Hs.
  pose proof (sort_by_perm timestamp_desc
                (filter (of_device (Some dev)) (sensor_data d))) as Hp.
  fold order_by_timestamp_desc in Hp.
  destruct (order_by_timestamp_desc (filter (of_device (Some dev)) (sensor_data d)))
    as [|x s]; cbn [firstn try_catch sent respond]; [discriminate|].
  intros H.
  assert (Hx : x = row) by (apply reading_object_inj; congruence). subst x.
  assert (Hrow : In row (filter (of_device (Some dev)) (sensor_data d)))
    by (apply (Permutation_in _ (Permutation_sym Hp)); now left).
  apply filter_In in Hrow as (Hrow & Hd). unfold of_device in Hd.
  apply sql_eq_text in Hd.
  repeat split; auto.
  intros r Hr Hrd.
  assert (Hin : In r (row :: s)).
  { apply (Permutation_in _ Hp). apply filter_In. split; [assumption|].
    unfold of_device. now apply sql_eq_text. }
  destruct Hin as [<-|Hin]; [lia|].
  apply StronglySorted_inv in Hs as (_ & Hle).
  rewrite Forall_forall in Hle. apply Hle in Hin.
  unfold timestamp_desc in Hin. now apply Z.leb_le.
Qed.

Lemma latest_reading_is_most_recent_witness :
  In (mkReading 2 "dev1" (Num 22) (Num 41) (Num 7) (Num 0) 1704153600001)
     (sensor_data sample_db) /\
  r_device_id (mkReading 2 "dev1" (Num 22) (Num 41) (Num 7) (Num 0) 1704153600001)
  = "dev1" /\
  (forall r, In r (sensor_data sample_db) -> r_device_id r = "dev1" ->
             r_timestamp r <= 1704153600001).
Proof.
  apply (latest_reading_is_most_recent (no_failure 0) sample_db
           (get_device "dev1" []) "dev1"
           (mkReading 2 "dev1" (Num 22) (Num 41) (Num 7) (Num 0) 1704153600001));
    reflexivity.
Defined.

Lemma ingest_sensor_data (e : env) (d : db) (req : request) (dev : string) :
  pg_text (field "device_id" (body req)) = Some dev ->
  sensor_data (store (post_api_data e d req)) = sensor_data d \/
  exists new, r_device_id new = dev /\
              sensor_data (store (post_api_data e d req)) = (sensor_data d ++ [new])%list.
Proof.
  intros Hdev. unfold post_api_data, pool_query. rewrite Hdev.
  destruct (negb _ || _ || _ || _ || _); [now left|].
  destruct (store_failure e); cbn [bind try_catch]; [now left|].
  right. eexists. split; [|reflexivity]. reflexivity.
Qed.

Lemma filter_other_device (P : reading -> bool) (l : list reading)
    (new : reading) (dev' : string) :
  r_device_id new <> dev' ->
  filter (fun r => of_device (Some dev') r && P r) (l ++ [new])%list
  = filter (fun r => of_device (Some dev') r && P r) l.
Proof.
  intros Hne. rewrite filter_app. cbn [filter]. unfold of_device at 2.
  cbn [sql_eq]. destruct (String.eqb_spec (r_device_id new) dev');
    [contradiction|]. cbn [andb]. apply app_nil_r.
Qed.

Lemma filter_of_device_and_true (dev : option string) (l : list reading) :
  filter (of_device dev) l = filter (fun r => of_device dev r && true) l.
Proof. apply filter_ext. intros r. now rewrite andb_true_r. Qed.

(** X12. Readings are kept apart by device: an IngestReading for one device,
    whatever its outcome, changes nothing in what ListReadings,
    LatestReading and HistoryByDate answer for another device. *)
Theorem ingest_leaves_other_devices_alone
    (Date_parse : string -> option Z) (e1 e2 : env) (d : db)
    (req1 req2 : request) (dev dev' : string) :
  pg_text (field "device_id" (body req1)) = Some dev ->
  field "device_id" (params req2) = Str dev' ->
  dev <> dev' ->
  sent (get_api_data e2 (store (post_api_data e1 d req1)) req2)
  = sent (get_api_data e2 d req2) /\
  sent (get_api_data_latest e2 (store (post_api_data e1 d req1)) req2)
  = sent (get_api_data_latest e2 d req2) /\
  sent (get_api_data_history Date_parse e2 (store (post_api_data e1 d req1)) req2)
  = sent (get_api_data_history Date_parse e2 d req2).
Proof.
  intros Hdev Hdev' Hne.
  assert (Hsel : forall P,
            filter (fun r => of_device (Some dev') r && P r)
                   (sensor_data (store (post_api_data e1 d req1)))
            = filter (fun r => of_device (Some dev') r && P r) (sensor_data d)).
  { intros P. destruct (ingest_sensor_data e1 d req1 dev Hdev) as [->|(new & Hn & ->)];
      [reflexivity|].
    apply filter_other_device. congruence. }
  set (d1 := store (post_api_data e1 d req1)) in *.
  split; [|split].
  - unfold get_api_data, pool_query, select_readings. rewrite Hdev'.
    destruct (store_failure e2); cbn [bind try_catch respond sent pg_text];
      [reflexivity|].
    rewrite !filter_of_device_and_true, Hsel. reflexivity.
  - unfold get_api_data_latest, pool_query, select_latest, select_readings.
    rewrite Hdev'.
    destruct (store_failure e2); cbn [bind try_catch respond sent pg_text snd];
      [reflexivity|].
    rewrite !filter_of_device_and_true, Hsel.
    destruct (firstn 1 _); reflexivity.
  - unfold get_api_data_history, pool_query, select_history. rewrite Hdev'.
    destruct (negb (truthy (field "date" (query req2)))); [reflexivity|].
    destruct (toISOString (setUTCHours 0 0 0 0 _)) as [lo|m];
      cbn [bind try_catch sent]; [|reflexivity].
    destruct (toISOString (setUTCHours 23 59 59 999 _)) as [hi|m];
      cbn [bind try_catch sent]; [|reflexivity].
    destruct (store_failure e2); cbn [bind try_catch respond sent pg_text];
      [reflexivity|].
    rewrite (Hsel (in_window lo hi)).
    destruct (order_by_timestamp_asc _); reflexivity.
Qed.

Lemma ingest_leaves_other_devices_alone_witness :
  sent (get_api_data (no_failure 0)
          (store (post_api_data (no_failure 1704200000000) sample_db
                    (post [("device_id", Str "dev1"); ("temperature", Num 23);
                           ("humidity", Num 0); ("air_quality", Num 12);
                           ("lpg_level", Num 3)])))
          (get_device "dev2" [("date", Str "2024-01-01")]))
  = sent (get_api_data (no_failure 0) sample_db
            (get_device "dev2" [("date", Str "2024-01-01")])) /\
  sent (get_api_data_latest (no_failure 0)
          (store (post_api_data (no_failure 1704200000000) sample_db
                    (post [("device_id", Str "dev1"); ("temperature", Num 23);
                           ("humidity", Num 0); ("air_quality", Num 12);
                           ("lpg_level", Num 3)])))
          (get_device "dev2" [("date", Str "2024-01-01")]))
  = sent (get_api_data_latest (no_failure 0) sample_db
            (get_device "dev2" [("date", Str "2024-01-01")])) /\
  sent (get_api_data_history iso_date_parse (no_failure 0)
          (store (post_api_data (no_failure 1704200000000) sample_db
                    (post [("device_id", Str "dev1"); ("temperature", Num 23);
                           ("humidity", Num 0); ("air_quality", Num 12);
                           ("lpg_level", Num 3)])))
          (get_device "dev2" [("date", Str "2024-01-01")]))
  = sent (get_api_data_history iso_date_parse (no_failure 0) sample_db
            (get_device "dev2" [("date", Str "2024-01-01")])).
Proof.
  apply (ingest_leaves_other_devices_alone iso_date_parse
           (no_failure 1704200000000) (no_failure 0) sample_db
           (post [("device_id", Str "dev1"); ("temperature", Num 23);
                  ("humidity", Num 0); ("air_quality", Num 12);
                  ("lpg_level", Num 3)])
           (get_device "dev2" [("date", Str "2024-01-01")]) "dev1" "dev2").
  - reflexivity.
  - reflexivity.
  - discriminate.
Defined.

(** X13. IngestReading followed by ListReadings for the same device: when both
    store calls succeed, the array has the rows it had before and the row
    IngestReading has returned, once. *)
Theorem ingest_then_list_readings
    (e1 e2 : env) (d : db) (req1 req2 : request) (dev : string) :
  field "device_id" (body req1) = Str dev ->
  dev <> "" ->
  is_undefined (field "temperature" (body req1)) = false ->
  is_undefined (field "humidity" (body req1)) = false ->
  is_undefined (field "air_quality" (body req1)) = false ->
  is_undefined (field "lpg_level" (body req1)) = false ->
  store_failure e1 = None ->
  field "device_id" (params req2) = Str dev ->
  store_failure e2 = None ->
  exists row before after,
    sent (post_api_data e1 d req1)
    = Responded 201 (JObj [("message", str "Data stored successfully");
                           ("data", JObj (reading_object row))]) /\
    sent (get_api_data e2 d req2) = Responded 200 (rows_json before) /\
    sent (get_api_data e2 (store (post_api_data e1 d req1)) req2)
    = Responded 200 (rows_json after) /\
    Permutation after (row :: before).
Proof.
  intros Hdev Hne Ht Hh Ha Hl He1 Hdev2 He2.
  set (row := mkReading (next_id d) dev
                (field "temperature" (body req1)) (field "humidity" (body req1))
                (field "air_quality" (body req1)) (field "lpg_level" (body req1))
                (now e1)).
  assert (Hpost : post_api_data e1 d req1
                  = respond (mkDb (users d) (sensor_data d ++ [row]) (next_id d + 1))
                      201 (JObj [("message", str "Data stored successfully");
                                 ("data", JObj (reading_object row))])).
  { unfold post_api_data, pool_query.
    rewrite Hdev, (truthy_Str dev Hne), Ht, Hh, Ha, Hl, He1. reflexivity. }
  exists row,
    (order_by_timestamp_desc (filter (of_device (Some dev)) (sensor_data d))),
    (order_by_timestamp_desc
       (filter (of_device (Some dev)) (sensor_data d ++ [row])%list)).
  rewrite Hpost. cbn [respond sent store].
  split; [reflexivity|]. split; [|split].
  - unfold get_api_data, pool_query. rewrite Hdev2, He2. reflexivity.
  - unfold get_api_data, pool_query. rewrite Hdev2, He2. reflexivity.
  - eapply perm_trans; [apply Permutation_sym, sort_by_perm|].
    rewrite filter_app. cbn [filter]. unfold of_device at 2. cbn [r_device_id row].
    rewrite (proj2 (sql_eq_text dev dev) eq_refl).
    eapply perm_trans; [apply Permutation_app_comm|]. cbn [app].
    apply perm_skip. apply sort_by_perm.
Qed.

Lemma ingest_then_list_readings_witness :
  exists row before after,
    sent (post_api_data (no_failure 1704200000000) sample_db
            (post [("device_id", Str "dev2"); ("temperature", Num 23);
                   ("humidity", Num 0); ("air_quality", Num 12);
                   ("lpg_level", Num 3)]))
    = Responded 201 (JObj [("message", str "Data stored successfully");
                           ("data", JObj (reading_object row))]) /\
    sent (get_api_data (no_failure 0) sample_db (get_device "dev2" []))
    = Responded 200 (rows_json before) /\
    sent (get_api_data (no_failure 0)
            (store (post_api_data (no_failure 1704200000000) sample_db
                      (post [("device_id", Str "dev2"); ("temperature", Num 23);
                             ("humidity", Num 0); ("air_quality", Num 12);
                             ("lpg_level", Num 3)])))
            (get_device "dev2" []))
    = Responded 200 (rows_json after) /\
    Permutation after (row :: before).
Proof.
  apply (ingest_then_list_readings (no_failure 1704200000000) (no_failure 0)
           sample_db
           (post [("device_id", Str "dev2"); ("temperature", Num 23);
                  ("humidity", Num 0); ("air_quality", Num 12);
                  ("lpg_level", Num 3)])
           (get_device "dev2" []) "dev2"); try reflexivity.
  discriminate.
Defined.

Lemma update_user_rows_exact (email : option string) (pw D : string) (d : db) :
  (In D (device_ids d) ->
   In (mkUser D email (Some pw)) (users (fst (update_user email pw (Some D) d)))) /\
  (forall u, In u (users (fst (update_user email pw (Some D) d))) ->
             u = mkUser D email (Some pw) \/ (In u (users d) /\ u_device_id u <> D)).
Proof.
  unfold update_user, device_ids. cbn [fst users sql_eq]. split.
  - intros HD. apply in_map_iff in HD as (x & Hx & Hin).
    apply in_map_iff. exists x. split; [|assumption].
    rewrite Hx, String.eqb_refl. reflexivity.
  - intros u Hu. apply in_map_iff in Hu as (x & <- & Hx).
    destruct (String.eqb_spec (u_device_id x) D) as [->|Hne]; auto.
Qed.

Lemma update_user_none_iff (email : option string) (pw D : string) (d : db) :
  snd (update_user email pw (Some D) d) = [] <-> ~ In D (device_ids d).
Proof.
  unfold update_user, device_ids. cbn [snd sql_eq]. split.
  - intros Hrows HD. apply in_map_iff in HD as (x & Hx & Hin).
    assert (Hf : In x (filter (fun u => (u_device_id u =? D)%string) (users d)))
      by (apply filter_In; split; [assumption|now apply String.eqb_eq]).
    destruct (filter _ (users d)); [contradiction|discriminate].
  - intros HD.
    destruct (filter (fun u => (u_device_id u =? D)%string) (users d))
      as [|x l] eqn:Hf; [reflexivity|].
    exfalso. apply HD.
    assert (Hx : In x (filter (fun u => (u_device_id u =? D)%string) (users d)))
      by (rewrite Hf; now left).
    apply filter_In in Hx as (Hx & Hd). apply String.eqb_eq in Hd.
    apply in_map_iff. eauto.
Qed.

(** X14. UpdateUserCredentials with a password and a device_id, the store call
    succeeding, answers 404 exactly when no user row has the device_id and
    200 exactly when one has: it never creates the account. *)
Theorem update_answers_404_for_unknown_device
    (bcrypt_hash : string -> string -> string)
    (e : env) (d : db) (req : request) (P D : string) :
  field "password" (body req) = Str P ->
  field "device_id" (body req) = Str D ->
  D <> "" ->
  store_failure e = None ->
  (sent (put_api_signup bcrypt_hash e d req)
   = Responded 404 (JObj [("error", str "Device ID not found")])
   <-> ~ In D (device_ids d)) /\
  (status_of (sent (put_api_signup bcrypt_hash e d req)) = Some 200
   <-> In D (device_ids d)).
Proof.
  intros HP HD Hne He.
  pose proof (update_user_none_iff (pg_text (field "email" (body req)))
                (bcrypt_hash (salt e) P) D d) as Hnone.
  unfold put_api_signup, pool_query.
  rewrite HP, HD, (truthy_Str D Hne), He. cbn [negb hash pg_text bind].
  destruct (update_user _ _ (Some D) d) as [d' rows]. cbn [snd] in Hnone.
  destruct rows as [|row rows]; cbn [try_catch respond sent status_of].
  - assert (Hno : ~ In D (device_ids d)) by now apply Hnone.
    split; split; auto; try discriminate. intros Hin. contradiction.
  - assert (Hin : In D (device_ids d)).
    { destruct (in_dec string_dec D (device_ids d)) as [Hin|Hno]; [assumption|].
      apply Hnone in Hno. discriminate. }
    split; split; auto; try discriminate. intros Hno. contradiction.
Qed.

Lemma update_answers_404_for_unknown_device_witness :
  (sent (put_api_signup plain_hash (no_failure 0) two_users_db
           (post [("email", Str "cat@example.org"); ("password", Str "meow");
                  ("device_id", Str "dev3")]))
   = Responded 404 (JObj [("error", str "Device ID not found")])
   <-> ~ In "dev3" (device_ids two_users_db)) /\
  (status_of (sent (put_api_signup plain_hash (no_failure 0) two_users_db
                      (post [("email", Str "cat@example.org"); ("password", Str "meow");
                             ("device_id", Str "dev3")]))) = Some 200
   <-> In "dev3" (device_ids two_users_db)).
Proof.
  apply (update_answers_404_for_unknown_device plain_hash (no_failure 0) two_users_db
           (post [("email", Str "cat@example.org"); ("password", Str "meow");
                  ("device_id", Str "dev3")]) "meow" "dev3");
    try reflexivity.
  discriminate.
Defined.

Lemma first_selected_is_new (E : string) (new : user_row)
    (old l : list user_row) (D : string) :
  u_email new = Some E ->
  In new l ->
  (forall u, In u l -> u = new \/ (In u old /\ u_device_id u <> D)) ->
  (forall u, In u old -> u_email u = Some E -> u_device_id u = D) ->
  exists others, filter (fun u => sql_eq (u_email u) (Some E)) l = new :: others.
Proof.
  intros Hmail Hnew Hrows Huniq.
  assert (Hin : In new (filter (fun u => sql_eq (u_email u) (Some E)) l)).
  { apply filter_In. split; [assumption|]. rewrite Hmail. now apply sql_eq_text. }
  destruct (filter (fun u => sql_eq (u_email u) (Some E)) l) as [|x others] eqn:Hf;
    [contradiction|].
  exists others. f_equal.
  assert (Hx : In x (filter (fun u => sql_eq (u_email u) (Some E)) l))
    by (rewrite Hf; now left).
  apply filter_In in Hx as (Hx & Hm).
  destruct (Hrows x Hx) as [->|(Hold & Hd)]; [reflexivity|].
  exfalso. apply Hd, Huniq; [assumption|].
  destruct (u_email x) as [m|]; [|discriminate].
  apply sql_eq_text in Hm. now subst.
Qed.

(** X15. UpdateUserCredentials then Login: for a device D that has a row, a
    non-empty email E that no row of another device has and a non-empty
    password P, when the store calls succeed and bcrypt verifies the hash it
    made, the update answers 200 with the user (device_id and email, no
    password) and Login with (E, P) answers device_id D. *)
Theorem update_then_login
    (bcrypt_hash : string -> string -> string)
    (bcrypt_compare : string -> string -> bool)
    (e1 e2 : env) (d : db) (req1 req2 : request) (E P D : string) :
  field "email" (body req1) = Str E ->
  field "password" (body req1) = Str P ->
  field "device_id" (body req1) = Str D ->
  field "email" (body req2) = Str E ->
  field "password" (body req2) = Str P ->
  E <> "" -> P <> "" -> D <> "" ->
  store_failure e1 = None ->
  store_failure e2 = None ->
  bcrypt_compare P (bcrypt_hash (salt e1) P) = true ->
  In D (device_ids d) ->
  (forall u, In u (users d) -> u_email u = Some E -> u_device_id u = D) ->
  sent (put_api_signup bcrypt_hash e1 d req1)
  = Responded 200 (JObj [("message", str "User updated successfully");
                         ("user", JObj [("device_id", str D); ("email", str E)])]) /\
  sent (post_api_login bcrypt_compare e2
          (store (put_api_signup bcrypt_hash e1 d req1)) req2)
  = Responded 200 (JObj [("message", str "Login successful");
                         ("device_id", str D)]).
Proof.
  intros Hm1 Hp1 Hd1 Hm2 Hp2 HE HP HD He1 He2 Hverify Hknown Huniq.
  set (h := bcrypt_hash (salt e1) P).
  destruct (update_user_rows_exact (Some E) h D d) as (Hnew & Hrows).
  specialize (Hnew Hknown).
  assert (Hsome : snd (update_user (Some E) h (Some D) d) <> []).
  { intros Hnil. apply update_user_none_iff in Hnil. contradiction. }
  assert (Hret : forall row, In row (snd (update_user (Some E) h (Some D) d)) ->
                             row = mkUser D (Some E) (Some h)).
  { unfold update_user. cbn [snd sql_eq]. intros row Hrow.
    apply in_map_iff in Hrow as (x & <- & Hx).
    apply filter_In in Hx as (_ & Hx). apply String.eqb_eq in Hx.
    now rewrite Hx. }
  assert (Hupdate : put_api_signup bcrypt_hash e1 d req1
                    = respond (fst (update_user (Some E) h (Some D) d)) 200
                        (JObj [("message", str "User updated successfully");
                               ("user", JObj [("device_id", str D);
                                              ("email", str E)])])).
  { unfold put_api_signup, pool_query.
    rewrite Hm1, Hp1, Hd1, (truthy_Str D HD), He1.
    cbn [negb hash pg_text bind]. fold h.
    destruct (update_user (Some E) h (Some D) d) as [d' rows].
    cbn [fst snd] in *.
    destruct rows as [|row rows]; [contradiction|].
    rewrite (Hret row (or_introl eq_refl)). reflexivity. }
  rewrite Hupdate. split; [reflexivity|]. cbn [store respond].
  destruct (first_selected_is_new E (mkUser D (Some E) (Some h)) (users d)
              (users (fst (update_user (Some E) h (Some D) d))) D
              eq_refl Hnew Hrows Huniq) as (others & Hsel).
  unfold post_api_login, pool_query, select_users_by_email.
  rewrite Hm2, Hp2, (truthy_Str E HE), (truthy_Str P HP), He2.
  cbn [negb orb pg_text bind]. rewrite Hsel.
  cbn [compare u_password bind]. unfold h. rewrite Hverify. reflexivity.
Qed.

Lemma update_then_login_witness :
  sent (put_api_signup plain_hash (no_failure 0) two_users_db
          (post [("email", Str "bob@example.net"); ("password", Str "renewed");
                 ("device_id", Str "dev2")]))
  = Responded 200 (JObj [("message", str "User updated successfully");
                         ("user", JObj [("device_id", str "dev2");
                                        ("email", str "bob@example.net")])]) /\
  sent (post_api_login plain_compare (no_failure 1)
          (store (put_api_signup plain_hash (no_failure 0) two_users_db
                    (post [("email", Str "bob@example.net"); ("password", Str "renewed");
                           ("device_id", Str "dev2")])))
          (post [("email", Str "bob@example.net"); ("password", Str "renewed")]))
  = Responded 200 (JObj [("message", str "Login successful");
                         ("device_id", str "dev2")]).
Proof.
  apply (update_then_login plain_hash plain_compare (no_failure 0) (no_failure 1)
           two_users_db
           (post [("email", Str "bob@example.net"); ("password", Str "renewed");
                  ("device_id", Str "dev2")])
           (post [("email", Str "bob@example.net"); ("password", Str "renewed")])
           "bob@example.net" "renewed" "dev2");
    try reflexivity; try discriminate.
  - simpl. auto.
  - intros u [<-|[<-|[]]]; discriminate.
Defined.

(** X16. Login answers 200 only for a stored account: the email selects a user
    row of the store whose stored hash bcrypt accepts for the password sent,
    and the device_id answered is the device_id of that row. *)
Theorem login_success_is_sound
    (bcrypt_compare : string -> string -> bool)
    (e : env) (d : db) (req : request) (payload : json) :
  sent (post_api_login bcrypt_compare e d req) = Responded 200 payload ->
  exists u E P h,
    pg_text (field "email" (body req)) = Some E /\
    field "password" (body req) = Str P /\
    In u (users d) /\
    u_email u = Some E /\
    u_password u = Some h /\
    bcrypt_compare P h = true /\
    payload = JObj [("message", str "Login successful");
                    ("device_id", str (u_device_id u))].
Proof.
  unfold post_api_login, pool_query, select_users_by_email.
  destruct (negb _ || negb _); cbn [try_catch respond sent]; [discriminate|].
  destruct (store_failure e); cbn [bind try_catch respond sent]; [discriminate|].
  destruct (filter _ (users d)) as [|u others] eqn:Hf;
    cbn [try_catch respond sent]; [discriminate|].
  assert (Hu : In u (filter (fun u => sql_eq (u_email u)
                                        (pg_text (field "email" (body req))))
                            (users d)))
    by (rewrite Hf; now left).
  apply filter_In in Hu as (Hu & Hm).
  unfold compare.
  destruct (field "password" (body req)) as [| |b|n|P];
    destruct (u_password u) as [h|] eqn:Hpw;
    cbn [bind try_catch respond sent]; try discriminate.
  destruct (bcrypt_compare P h) eqn:Hok; cbn [negb try_catch respond sent];
    [|discriminate].
  intros H. injection H as <-.
  destruct (u_email u) as [m|] eqn:Hmail; [|discriminate].
  destruct (pg_text (field "email" (body req))) as [E|]; [|discriminate].
  apply sql_eq_text in Hm. subst m.
  exists u, E, P, h. repeat split; auto.
Qed.

Lemma login_success_is_sound_witness :
  exists u E P h,
    pg_text (field "email" (body (post [("email", Str "ann@example.org");
                                        ("password", Str "secret")]))) = Some E /\
    field "password" (body (post [("email", Str "ann@example.org");
                                  ("password", Str "secret")])) = Str P /\
    In u (users two_users_db) /\
    u_email u = Some E /\
    u_password u = Some h /\
    plain_compare P h = true /\
    JObj [("message", str "Login successful"); ("device_id", str "dev1")]
    = JObj [("message", str "Login successful");
            ("device_id", str (u_device_id u))].
Proof.
  apply (login_success_is_sound plain_compare (no_failure 0) two_users_db
           (post [("email", Str "ann@example.org"); ("password", Str "secret")])).
  reflexivity.
Defined.

Lemma instant_in_its_day (t : Z) :
  Day t * msPerDay <= t <= Day t * msPerDay + 86399999.
Proof.
  unfold Day, msPerDay.
  pose proof (Z.div_mod t 86400000 ltac:(discriminate)) as Hdm.
  pose proof (Z.mod_pos_bound t 86400000 ltac:(reflexivity)) as Hb.
  lia.
Qed.

(** X17. HistoryByDate reads the date as an instant and selects the UTC day
    that instant lies in: for a date string denoting any instant t (with a
    time of day or not) of a representable day, the store call succeeding,
    the rows answered are the stored rows of the device from the first to
    the last millisecond of the UTC day of t, a window that holds t itself;
    the no-data marker is answered exactly when the device has no row in
    it. *)
Theorem history_selects_the_utc_day_of_the_instant
    (Date_parse : string -> option Z) (e : env) (d : db) (req : request)
    (dev date : string) (t : Z) :
  field "device_id" (params req) = Str dev ->
  field "date" (query req) = Str date ->
  date <> "" ->
  Date_parse date = Some t ->
  - maxTime <= Day t * msPerDay ->
  Day t * msPerDay + 86399999 <= maxTime ->
  store_failure e = None ->
  Day t * msPerDay <= t <= Day t * msPerDay + 86399999 /\
  exists rows,
    get_api_data_history Date_parse e d req
    = respond d 200 (match rows with
                     | [] => no_data_marker
                     | _ :: _ => rows_json rows
                     end)
    /\ (forall r, In r rows <->
                  In r (sensor_data d) /\ r_device_id r = dev /\
                  Day t * msPerDay <= r_timestamp r <= Day t * msPerDay + 86399999)
    /\ (sent (get_api_data_history Date_parse e d req) = Responded 200 no_data_marker
        <-> forall r, In r (sensor_data d) -> r_device_id r = dev ->
                      ~ (Day t * msPerDay <= r_timestamp r
                         <= Day t * msPerDay + 86399999)).
Proof.
  intros Hdev Hdate Hne Hparse Hlo Hhi He.
  split; [apply instant_in_its_day|].
  set (lo := Day t * msPerDay) in *.
  set (sel := filter (fun r => of_device (Some dev) r && in_window lo (lo + 86399999) r)
                     (sensor_data d)).
  assert (Hin : forall r, In r (order_by_timestamp_asc sel) <->
                  In r (sensor_data d) /\ r_device_id r = dev /\
                  lo <= r_timestamp r <= lo + 86399999).
  { intros r. unfold order_by_timestamp_asc.
    assert (Hp := sort_by_perm timestamp_asc sel).
    split.
    - intros Hr. apply (Permutation_in _ (Permutation_sym Hp)) in Hr.
      apply filter_In in Hr as (Hr & Hc).
      apply andb_prop in Hc as (Hc1 & Hc2). apply andb_prop in Hc2 as (Hc2 & Hc3).
      apply sql_eq_text in Hc1. apply Z.leb_le in Hc2, Hc3. auto.
    - intros (Hr & Hd & Ht1 & Ht2). apply (Permutation_in _ Hp).
      apply filter_In. split; [assumption|].
      unfold of_device, in_window. rewrite (proj2 (sql_eq_text _ _) Hd).
      rewrite (proj2 (Z.leb_le _ _) Ht1), (proj2 (Z.leb_le _ _) Ht2). reflexivity. }
  assert (Hreply : get_api_data_history Date_parse e d req
                   = respond d 200 (match order_by_timestamp_asc sel with
                                    | [] => no_data_marker
                                    | _ :: _ => rows_json (order_by_timestamp_asc sel)
                                    end)).
  { unfold get_api_data_history. rewrite Hdev, Hdate, (truthy_Str date Hne).
    cbn [negb new_Date]. rewrite Hparse.
    destruct (utc_day_window t Hlo Hhi) as (-> & ->).
    unfold pool_query. rewrite He. cbn [toISOString bind try_catch].
    unfold select_history. cbn [pg_text]. fold lo. fold sel.
    destruct (order_by_timestamp_asc sel); reflexivity. }
  exists (order_by_timestamp_asc sel). split; [exact Hreply|]. split; [exact Hin|].
  rewrite Hreply. cbn [respond sent].
  destruct (order_by_timestamp_asc sel) as [|x rows] eqn:Hsorted.
  - split; [|reflexivity]. intros _ r Hr Hd Hw.
    apply (proj2 (Hin r)). auto.
  - split; [discriminate|]. intros Hnone. exfalso.
    destruct (proj1 (Hin x) (or_introl eq_refl)) as (Hx & Hd & Hw).
    exact (Hnone x Hx Hd Hw).
Qed.

Lemma history_selects_the_utc_day_of_the_instant_witness :
  Day 1704115800000 * msPerDay <= 1704115800000
  <= Day 1704115800000 * msPerDay + 86399999 /\
  exists rows,
    get_api_data_history iso_datetime_parse (no_failure 0) sample_db
      (get_device "dev1" [("date", Str "2024-01-01T13:30:00.000Z")])
    = respond sample_db 200 (match rows with
                             | [] => no_data_marker
                             | _ :: _ => rows_json rows
                             end)
    /\ (forall r, In r rows <->
                  In r (sensor_data sample_db) /\ r_device_id r = "dev1" /\
                  Day 1704115800000 * msPerDay <= r_timestamp r
                  <= Day 1704115800000 * msPerDay + 86399999)
    /\ (sent (get_api_data_history iso_datetime_parse (no_failure 0) sample_db
                (get_device "dev1" [("date", Str "2024-01-01T13:30:00.000Z")]))
        = Responded 200 no_data_marker
        <-> forall r, In r (sensor_data sample_db) -> r_device_id r = "dev1" ->
                      ~ (Day 1704115800000 * msPerDay <= r_timestamp r
                         <= Day 1704115800000 * msPerDay + 86399999)).
Proof.
  apply (history_selects_the_utc_day_of_the_instant iso_datetime_parse (no_failure 0)
           sample_db (get_device "dev1" [("date", Str "2024-01-01T13:30:00.000Z")])
           "dev1" "2024-01-01T13:30:00.000Z" 1704115800000).
  - reflexivity.
  - reflexivity.
  - discriminate.
  - vm_compute. reflexivity.
  - vm_compute. discriminate.
  - vm_compute. discriminate.
  - reflexivity.
Defined.

(** X18. The last UTC day ECMAScript can represent has no last millisecond: for a
    date string that denotes an instant of that day, the end of the window
    is an invalid date, its conversion throws inside the try block and
    HistoryByDate answers 500 without calling the store. *)
Theorem history_of_the_last_day_is_500
    (Date_parse : string -> option Z) (e : env) (d : db) (req : request)
    (date : string) (t : Z) :
  field "date" (query req) = Str date ->
  date <> "" ->
  Date_parse date = Some t ->
  maxTime < Day t * msPerDay + 86399999 ->
  get_api_data_history Date_parse e d req
  = mkReply d
      (Responded 500 (JObj [("error", str "Failed to fetch historical data")]))
      [("Database error:", "Invalid time value")].
Proof.
  intros Hdate Hne Hparse Hlast.
  unfold get_api_data_history. rewrite Hdate, (truthy_Str date Hne).
  cbn [negb new_Date]. rewrite Hparse.
  unfold setUTCHours, TimeClip, MakeDate.
  change (MakeTime 23 59 59 999) with 86399999.
  replace (Z.abs (Day t * msPerDay + 86399999) <=? maxTime) with false
    by (symmetry; apply Z.leb_gt; lia).
  destruct (Z.abs (Day t * msPerDay + MakeTime 0 0 0 0) <=? maxTime); reflexivity.
Qed.

Lemma history_of_the_last_day_is_500_witness :
  get_api_data_history iso_date_parse_expanded (no_failure 0) sample_db
    (get_device "dev1" [("date", Str "+275760-09-13T00:00:00.000Z")])
  = mkReply sample_db
      (Responded 500 (JObj [("error", str "Failed to fetch historical data")]))
      [("Database error:", "Invalid time value")].
Proof.
  apply (history_of_the_last_day_is_500 iso_date_parse_expanded (no_failure 0)
           sample_db (get_device "dev1" [("date", Str "+275760-09-13T00:00:00.000Z")])
           "+275760-09-13T00:00:00.000Z" maxTime).
  - reflexivity.
  - discriminate.
  - reflexivity.
  - vm_compute. reflexivity.
Defined.

(** X19. A handler writes to the console exactly when it answers 500, and then
    one entry; replies with any other status, and requests that escape the
    handler, log nothing. *)
Theorem console_written_exactly_on_500
    (bcrypt_hash : string -> string -> string)
    (bcrypt_compare : string -> string -> bool) (Date_parse : string -> option Z)
    (e : env) (d : db) (req : request) :
  List.length (console (put_api_signup bcrypt_hash e d req))
  = entries_for (sent (put_api_signup bcrypt_hash e d req)) /\
  List.length (console (post_api_login bcrypt_compare e d req))
  = entries_for (sent (post_api_login bcrypt_compare e d req)) /\
  List.length (console (post_api_data e d req))
  = entries_for (sent (post_api_data e d req)) /\
  List.length (console (get_api_data e d req))
  = entries_for (sent (get_api_data e d req)) /\
  List.length (console (get_api_data_latest e d req))
  = entries_for (sent (get_api_data_latest e d req)) /\
  List.length (console (get_api_data_history Date_parse e d req))
  = entries_for (sent (get_api_data_history Date_parse e d req)) /\
  List.length (console (post_api_signup_admin bcrypt_hash e d req))
  = entries_for (sent (post_api_signup_admin bcrypt_hash e d req)).
Proof.
  unfold_handlers. repeat split; branches; reflexivity.
Qed.

(** X20. No retry and no partial success: while the store call fails no handler
    answers a success; each answers 400 (its guard), 500, or, for the two
    signups, nothing at all, and leaves the store as it was. ListReadings
    and LatestReading, which have no guard, answer 500 and log the message
    of the failure. *)
Theorem store_failure_fails_the_request
    (bcrypt_hash : string -> string -> string)
    (bcrypt_compare : string -> string -> bool) (Date_parse : string -> option Z)
    (e : env) (d : db) (req : request) (message : string) :
  store_failure e = Some message ->
  (In (status_of (sent (put_api_signup bcrypt_hash e d req)))
      [Some 400; Some 500; None] /\
   store (put_api_signup bcrypt_hash e d req) = d) /\
  (In (status_of (sent (post_api_login bcrypt_compare e d req)))
      [Some 400; Some 500] /\
   store (post_api_login bcrypt_compare e d req) = d) /\
  (In (status_of (sent (post_api_data e d req))) [Some 400; Some 500] /\
   store (post_api_data e d req) = d) /\
  get_api_data e d req
  = mkReply d (Responded 500 (JObj [("error", str "Failed to fetch data")]))
            [("Database error:", message)] /\
  get_api_data_latest e d req
  = mkReply d (Responded 500 (JObj [("error", str "Failed to fetch latest data")]))
            [("Database error:", message)] /\
  (In (status_of (sent (get_api_data_history Date_parse e d req)))
      [Some 400; Some 500] /\
   store (get_api_data_history Date_parse e d req) = d) /\
  (In (status_of (sent (post_api_signup_admin bcrypt_hash e d req)))
      [Some 400; Some 500; None] /\
   store (post_api_signup_admin bcrypt_hash e d req) = d).
Proof.
  intros He. unfold_handlers. rewrite He.
  repeat split; branches; simpl; tauto.
Qed.

Lemma store_failure_fails_the_request_witness :
  get_api_data (failure "connection terminated unexpectedly") sample_db
    (get_device "dev1" [])
  = mkReply sample_db
      (Responded 500 (JObj [("error", str "Failed to fetch data")]))
      [("Database error:", "connection terminated unexpectedly")] /\
  store (post_api_data (failure "connection terminated unexpectedly") sample_db
           (post [("device_id", Str "dev1"); ("temperature", Num 23);
                  ("humidity", Num 0); ("air_quality", Num 12);
                  ("lpg_level", Num 3)]))
  = sample_db.
Proof.
  pose proof (store_failure_fails_the_request plain_hash plain_compare iso_date_parse
                (failure "connection terminated unexpectedly") sample_db
                (get_device "dev1" []) "connection terminated unexpectedly" eq_refl)
    as (_ & _ & _ & Hlist & _).
  pose proof (store_failure_fails_the_request plain_hash plain_compare iso_date_parse
                (failure "connection terminated unexpectedly") sample_db
                (post [("device_id", Str "dev1"); ("temperature", Num 23);
                       ("humidity", Num 0); ("air_quality", Num 12);
                       ("lpg_level", Num 3)])
                "connection terminated unexpectedly" eq_refl)
    as (_ & _ & (_ & Hdata) & _).
  split; [exact Hlist|exact Hdata].
Defined.

(** X21. A new password replaces the old one: after a successful AdminUpsertUser
    for device D with email E (which no other device has) and password P,
    Login with E and any other password that bcrypt does not accept for the
    new hash is answered 401. *)
Theorem admin_upsert_retires_the_old_password
    (bcrypt_hash : string -> string -> string)
    (bcrypt_compare : string -> string -> bool)
    (e1 e2 : env) (d : db) (req1 req2 : request) (E P D old : string) :
  field "email" (body req1) = Str E ->
  field "password" (body req1) = Str P ->
  field "device_id" (body req1) = Str D ->
  field "email" (body req2) = Str E ->
  field "password" (body req2) = Str old ->
  E <> "" -> old <> "" -> D <> "" ->
  store_failure e1 = None ->
  store_failure e2 = None ->
  bcrypt_compare old (bcrypt_hash (salt e1) P) = false ->
  (forall u, In u (users d) -> u_email u = Some E -> u_device_id u = D) ->
  post_api_login bcrypt_compare e2
    (store (post_api_signup_admin bcrypt_hash e1 d req1)) req2
  = respond (store (post_api_signup_admin bcrypt_hash e1 d req1)) 401
      (JObj [("message", str "Invalid credentials")]).
Proof.
  intros Hm1 Hp1 Hd1 Hm2 Hp2 HE Hold HD He1 He2 Hreject Huniq.
  set (h := bcrypt_hash (salt e1) P).
  assert (Hadmin : store (post_api_signup_admin bcrypt_hash e1 d req1)
                   = fst (upsert_user D (Some E) h d)).
  { unfold post_api_signup_admin, pool_query.
    rewrite Hm1, Hp1, Hd1, (truthy_Str D HD), He1. reflexivity. }
  rewrite Hadmin.
  destruct (upsert_user_rows D (Some E) h d) as (Hnew & Hrows).
  destruct (first_selected_is_new E (mkUser D (Some E) (Some h)) (users d)
              (users (fst (upsert_user D (Some E) h d))) D
              eq_refl Hnew Hrows Huniq) as (others & Hsel).
  unfold post_api_login, pool_query, select_users_by_email.
  rewrite Hm2, Hp2, (truthy_Str E HE), (truthy_Str old Hold), He2.
  cbn [negb orb pg_text bind]. rewrite Hsel.
  cbn [compare u_password bind]. unfold h. rewrite Hreject. reflexivity.
Qed.

Lemma admin_upsert_retires_the_old_password_witness :
  post_api_login plain_compare (no_failure 1)
    (store (post_api_signup_admin plain_hash (no_failure 0) two_users_db
              (post [("email", Str "ann@example.org"); ("password", Str "renewed");
                     ("device_id", Str "dev1")])))
    (post [("email", Str "ann@example.org"); ("password", Str "secret")])
  = respond
      (store (post_api_signup_admin plain_hash (no_failure 0) two_users_db
                (post [("email", Str "ann@example.org"); ("password", Str "renewed");
                       ("device_id", Str "dev1")])))
      401 (JObj [("message", str "Invalid credentials")]).
Proof.
  apply (admin_upsert_retires_the_old_password plain_hash plain_compare
           (no_failure 0) (no_failure 1) two_users_db
           (post [("email", Str "ann@example.org"); ("password", Str "renewed");
                  ("device_id", Str "dev1")])
           (post [("email", Str "ann@example.org"); ("password", Str "secret")])
           "ann@example.org" "renewed" "dev1" "secret");
    try reflexivity; try discriminate.
  intros u [<-|[<-|[]]]; [reflexivity|discriminate].
Defined.
